(** * Request validation and policy resolution of presidio-anonymizer

    A shallow embedding of
    [presidio_anonymizer/entities/anonymizer_request.py] ([AnonymizerRequest]).

    - The request [data] is the decoded JSON body, a Python dict; it is
      modelled as an association list from keys to [value]s, in insertion
      order.  JSON decoding yields distinct objects, so every policy dict
      stored in the request is its own object and is identified with its
      slot in [_anonymizers].
    - The constructor runs in a small state-and-exception monad [M]: an
      exception aborts with the object state reached so far, as in Python.
    - Strings are [String.string]; the model covers ASCII text, on which
      Python's [str.lower] is the ASCII case mapping written below. *)

From Stdlib Require Import String Ascii List ZArith NArith Bool Lia.
From Stdlib Require Import Sorting.Sorted.
Import ListNotations.

Local Open Scope Z_scope.
Local Open Scope string_scope.

(** ** Python values *)

#[warnings="-register-all"]
Inductive value : Type :=
| VNone
| VBool (b : bool)
| VInt (z : Z)
| VStr (s : string)
| VList (l : list value)
| VDict (d : list (string * value))
| VClass (name : string).

Definition dict := list (string * value).

(** [d.get(k)] as an option, and [d[k] = v] (in place when [k] exists,
    appended otherwise). *)
Fixpoint assoc_get {A : Type} (k : string) (d : list (string * A)) : option A :=
  match d with
  | [] => None
  | (k', v) :: t => if String.eqb k k' then Some v else assoc_get k t
  end.

Fixpoint assoc_set {A : Type} (k : string) (v : A) (d : list (string * A))
  : list (string * A) :=
  match d with
  | [] => [(k, v)]
  | (k', v') :: t =>
      if String.eqb k k' then (k, v) :: t else (k', v') :: assoc_set k v t
  end.

(** [d.get(k)]: [None] when the key is missing. *)
Definition dict_get (k : string) (d : dict) : value :=
  match assoc_get k d with Some v => v | None => VNone end.

(** Python truthiness ([not x] is [negb (truthy x)]). *)
Definition truthy (v : value) : bool :=
  match v with
  | VNone => false
  | VBool b => b
  | VInt z => negb (Z.eqb z 0)
  | VStr s => negb (String.eqb s "")
  | VList l => match l with [] => false | _ => true end
  | VDict d => match d with [] => false | _ => true end
  | VClass _ => true
  end.

Definition type_name (v : value) : string :=
  match v with
  | VNone => "NoneType"
  | VBool _ => "bool"
  | VInt _ => "int"
  | VStr _ => "str"
  | VList _ => "list"
  | VDict _ => "dict"
  | VClass _ => "type"
  end.

(** [len(v)] *)
Definition py_len (v : value) : option Z :=
  match v with
  | VStr s => Some (Z.of_nat (String.length s))
  | VList l => Some (Z.of_nat (List.length l))
  | VDict d => Some (Z.of_nat (List.length d))
  | _ => None
  end.

(** [for x in v]: lists yield their items, strings their characters and
    dicts their keys. *)
Definition py_iter (v : value) : option (list value) :=
  match v with
  | VList l => Some l
  | VStr s => Some (map (fun c => VStr (String c EmptyString)) (list_ascii_of_string s))
  | VDict d => Some (map (fun kv => VStr (fst kv)) d)
  | _ => None
  end.

(** [str.lower] on ASCII. *)
Definition lower_ascii (c : ascii) : ascii :=
  let n := nat_of_ascii c in
  if (Nat.leb 65 n && Nat.leb n 90)%bool then ascii_of_nat (n + 32) else c.

Fixpoint lower (s : string) : string :=
  match s with
  | EmptyString => EmptyString
  | String c s' => String (lower_ascii c) (lower s')
  end.

(** [str(n)] for an integer. *)
Fixpoint digits_aux (fuel : nat) (n : N) (acc : string) : string :=
  match fuel with
  | O => acc
  | S f =>
      let acc' := String (ascii_of_N (48 + N.modulo n 10)) acc in
      if N.ltb n 10 then acc' else digits_aux f (N.div n 10) acc'
  end.

Definition str_of_N (n : N) : string := digits_aux (S (N.size_nat n)) n "".

Definition str_of_Z (z : Z) : string :=
  if Z.ltb z 0 then "-" ++ str_of_N (Z.to_N (Z.opp z)) else str_of_N (Z.to_N z).

(** ** Exceptions *)

Inductive error : Type :=
| InvalidParamException (err_msg : string)
| AttributeError (msg : string)
| KeyError (key : string)
| TypeError (msg : string).

Definition empty_text_msg : string := "Invalid input, text can not be empty".
Definition empty_results_msg : string :=
  "Invalid input, " ++ "analyzer results can not be empty".
Definition unknown_anonymizer_msg (anonymizer_type : string) : string :=
  "Invalid anonymizer class '" ++ anonymizer_type ++ "'.".

(** ** Analyzer results

    Modelled from the spec: [AnalyzerResult] and
    [AnalyzerResult.validate_position_in_text] are imported from
    [presidio_anonymizer.entities] and are not part of the sources.  Following
    the spec (4.1, 7): a result must carry [start], [end] and [entity_type]
    (otherwise [MissingField], with the message the tests show for [start]);
    a result is out of bounds when [start < 0], [end > len(text)] or
    [start >= end], and the message reports both offsets and the text length
    verbatim. *)

Record AnalyzerResult : Type := mkAnalyzerResult {
  start : Z;
  end_ : Z;
  entity_type : string;
  score : value
}.

Definition missing_field_msg (field : string) : string :=
  "Invalid input, analyzer result must contain " ++ field.

Definition analyzer_result_of (content : value) : error + AnalyzerResult :=
  match content with
  | VDict d =>
      match dict_get "start" d with
      | VInt s =>
          match dict_get "end" d with
          | VInt e =>
              match dict_get "entity_type" d with
              | VStr l => inr (mkAnalyzerResult s e l (dict_get "score" d))
              | _ => inl (InvalidParamException (missing_field_msg "entity_type"))
              end
          | _ => inl (InvalidParamException (missing_field_msg "end"))
          end
      | _ => inl (InvalidParamException (missing_field_msg "start"))
      end
  | _ => inl (InvalidParamException (missing_field_msg "start"))
  end.

Definition out_of_bounds_msg (s e text_len : Z) : string :=
  "Invalid analyzer result, start: " ++ str_of_Z s ++ " and end: "
  ++ str_of_Z e ++ ", while text length is only " ++ str_of_Z text_len ++ ".".

Definition out_of_bounds (r : AnalyzerResult) (text_len : Z) : bool :=
  (Z.ltb (start r) 0 || Z.ltb text_len (end_ r) || Z.leb (end_ r) (start r))%bool.

Definition validate_position_in_text (r : AnalyzerResult) (text_len : Z)
  : error + unit :=
  if out_of_bounds r text_len
  then inl (InvalidParamException (out_of_bounds_msg (start r) (end_ r) text_len))
  else inr tt.

(** ** The request object and its monad *)

(** The attributes of an [AnonymizerRequest]: [anonymizers] is the
    registry passed to the constructor (kind name to class), [_text] and
    [default_anonymizer] are [None] while not yet assigned. *)
Record request : Type := mk_request {
  anonymizers : dict;
  _anonymizers : list (string * dict);
  _analysis_results : list AnalyzerResult;
  _text : option value;
  default_anonymizer : option dict
}.

Definition with_anonymizers_ (a : list (string * dict)) (r : request) : request :=
  mk_request (anonymizers r) a (_analysis_results r) (_text r) (default_anonymizer r).
Definition with_analysis_results (l : list AnalyzerResult) (r : request) : request :=
  mk_request (anonymizers r) (_anonymizers r) l (_text r) (default_anonymizer r).
Definition with_text (t : value) (r : request) : request :=
  mk_request (anonymizers r) (_anonymizers r) (_analysis_results r) (Some t)
    (default_anonymizer r).
Definition with_default (d : dict) (r : request) : request :=
  mk_request (anonymizers r) (_anonymizers r) (_analysis_results r) (_text r) (Some d).

Definition M (A : Type) : Type := request -> (error + A) * request.

Definition ret {A : Type} (a : A) : M A := fun self => (inr a, self).
Definition raise {A : Type} (e : error) : M A := fun self => (inl e, self).
Definition bind {A B : Type} (m : M A) (f : A -> M B) : M B :=
  fun self =>
    match m self with
    | (inl e, self') => (inl e, self')
    | (inr a, self') => f a self'
    end.
Definition modify (f : request -> request) : M unit := fun self => (inr tt, f self).
Definition gets {A : Type} (f : request -> A) : M A := fun self => (inr (f self), self).
Definition lift {A : Type} (x : error + A) : M A :=
  match x with inl e => raise e | inr a => ret a end.

Notation "x <- m ;; k" := (bind m (fun x => k))
  (at level 61, m at next level, right associativity).
Notation "m ;;; k" := (bind m (fun _ => k)) (at level 61, right associativity).

Fixpoint for_each {A : Type} (body : A -> M unit) (l : list A) : M unit :=
  match l with
  | [] => ret tt
  | x :: t => body x ;;; for_each body t
  end.

(** ** [AnonymizerRequest] *)

Definition handle_text (data : dict) : M unit :=
  modify (with_text (dict_get "text" data)) ;;;
  if negb (truthy (dict_get "text" data))
  then raise (InvalidParamException empty_text_msg)
  else ret tt.

(** The body of the loop of [__handle_analyzer_results]. *)
Definition handle_analyzer_result (text_len : Z) (analyzer_result : value) : M unit :=
  r <- lift (analyzer_result_of analyzer_result) ;;
  lift (validate_position_in_text r text_len) ;;;
  modify (fun self => with_analysis_results (_analysis_results self ++ [r])%list self).

Definition handle_analyzer_results (data : dict) : M unit :=
  let analyzer_results := dict_get "analyzer_results" data in
  if negb (truthy analyzer_results)
  then raise (InvalidParamException empty_results_msg)
  else
    text_len <- lift (match py_len (dict_get "text" data) with
                      | Some n => inr n
                      | None => inl (TypeError ("object of type '"
                                   ++ type_name (dict_get "text" data) ++ "' has no len()"))
                      end) ;;
    items <- lift (match py_iter analyzer_results with
                   | Some l => inr l
                   | None => inl (TypeError ("'" ++ type_name analyzer_results
                                   ++ "' object is not iterable"))
                   end) ;;
    for_each (handle_analyzer_result text_len) items.

(** [__get_anonymizer], after [anonymizer.get] has been resolved on the
    policy dict. *)
Definition get_anonymizer (anonymizer : dict) : M value :=
  match dict_get "type" anonymizer with
  | VStr t =>
      let anonymizer_type := lower t in
      reg <- gets anonymizers ;;
      let a := dict_get anonymizer_type reg in
      if negb (truthy a)
      then raise (InvalidParamException (unknown_anonymizer_msg anonymizer_type))
      else ret a
  | v => raise (AttributeError ("'" ++ type_name v ++ "' object has no attribute 'lower'"))
  end.

Definition handle_anonymizer_item (item : string * value) : M unit :=
  let (key, anonymizer_dto) := item in
  match anonymizer_dto with
  | VDict d =>
      anonymizer <- get_anonymizer d ;;
      modify (fun self =>
                with_anonymizers_
                  (assoc_set key (assoc_set "anonymizer" anonymizer d) (_anonymizers self))
                  self)
  | v => raise (AttributeError ("'" ++ type_name v ++ "' object has no attribute 'get'"))
  end.

Definition handle_anonymizers (data : dict) : M unit :=
  match dict_get "anonymizers" data with
  | VNone => ret tt
  | VDict items => for_each handle_anonymizer_item items
  | v => raise (AttributeError ("'" ++ type_name v ++ "' object has no attribute 'items'"))
  end.

Definition validate_and_insert_input (data : dict) : M unit :=
  handle_text data ;;; handle_analyzer_results data ;;; handle_anonymizers data.

Definition set_default_anonymizer : M unit :=
  reg <- gets anonymizers ;;
  match assoc_get "replace" reg with
  | None => raise (KeyError "replace")
  | Some a => modify (with_default [("type", VStr "replace"); ("anonymizer", a)])
  end.

Definition new_request (anonymizers : dict) : request :=
  mk_request anonymizers [] [] None None.

(** [AnonymizerRequest.__init__], with the object state it ends in. *)
Definition init (data : dict) (anonymizers : dict) : (error + unit) * request :=
  (validate_and_insert_input data ;;; set_default_anonymizer) (new_request anonymizers).

(** [AnonymizerRequest(data, anonymizers)]: the constructed object, or the
    exception it raises. *)
Definition AnonymizerRequest (data : dict) (anonymizers : dict) : error + request :=
  match init data anonymizers with
  | (inl e, _) => inl e
  | (inr _, self) => inr self
  end.

(** ** Policy resolution *)

Definition tag_entity_type (entity_type : string) (d : dict) : dict :=
  assoc_set "entity_type" (VStr entity_type) d.

(** [get_anonymizer_dto]: the resolved dict object gets its ["entity_type"]
    key assigned in place, and is returned. *)
Definition get_anonymizer_dto (entity_type : string) : M dict :=
  fun self =>
    match assoc_get entity_type (_anonymizers self) with
    | Some ((_ :: _) as d) =>
        let d' := tag_entity_type entity_type d in
        (inr d', with_anonymizers_ (assoc_set entity_type d' (_anonymizers self)) self)
    | _ =>
        match assoc_get "DEFAULT" (_anonymizers self) with
        | Some ((_ :: _) as d) =>
            let d' := tag_entity_type entity_type d in
            (inr d', with_anonymizers_ (assoc_set "DEFAULT" d' (_anonymizers self)) self)
        | _ =>
            match default_anonymizer self with
            | Some d =>
                let d' := tag_entity_type entity_type d in
                (inr d', with_default d' self)
            | None =>
                (inl (AttributeError
                        "'AnonymizerRequest' object has no attribute 'default_anonymizer'"),
                 self)
            end
        end
    end.

(** ** Getters *)

(** [get_text]: [self._text], an [AttributeError] while it is unset. *)
Definition get_text : M value :=
  fun self =>
    match _text self with
    | Some t => (inr t, self)
    | None => (inl (AttributeError "'AnonymizerRequest' object has no attribute '_text'"), self)
    end.

(** [get_analysis_results]: [self._analysis_results]. *)
Definition get_analysis_results : M (list AnalyzerResult) := gets _analysis_results.

(** ** Conflict resolution

    Modelled from the spec: the conflict resolver
    ([AnalyzerResults.to_sorted_unique_results], called by the engine) is not
    part of the sources.  Following spec 4.3: sort by [end] descending, ties
    by [start] ascending; walk the sorted spans and drop every span whose
    [[start, end)] range intersects an already accepted one, or that repeats
    an accepted span exactly (same [start], [end] and label). *)

Definition span_before (a b : AnalyzerResult) : bool :=
  (Z.ltb (end_ b) (end_ a) || (Z.eqb (end_ a) (end_ b) && Z.leb (start a) (start b)))%bool.

Fixpoint insert_span (x : AnalyzerResult) (l : list AnalyzerResult) : list AnalyzerResult :=
  match l with
  | [] => [x]
  | y :: t => if span_before x y then x :: y :: t else y :: insert_span x t
  end.

Fixpoint sort_spans (l : list AnalyzerResult) : list AnalyzerResult :=
  match l with
  | [] => []
  | x :: t => insert_span x (sort_spans t)
  end.

Definition intersects (a b : AnalyzerResult) : bool :=
  (Z.ltb (start a) (end_ b) && Z.ltb (start b) (end_ a))%bool.

Definition same_span (a b : AnalyzerResult) : bool :=
  (Z.eqb (start a) (start b) && Z.eqb (end_ a) (end_ b)
   && String.eqb (entity_type a) (entity_type b))%bool.

Definition conflicts (x y : AnalyzerResult) : bool := (intersects x y || same_span x y)%bool.

Fixpoint accept_spans (accepted : list AnalyzerResult) (l : list AnalyzerResult)
  : list AnalyzerResult :=
  match l with
  | [] => accepted
  | x :: t =>
      if existsb (conflicts x) accepted
      then accept_spans accepted t
      else accept_spans (accepted ++ [x])%list t
  end.

Definition to_sorted_unique_results (l : list AnalyzerResult) : list AnalyzerResult :=
  accept_spans [] (sort_spans l).

(** The offsets covered by a span, [[start, end)]. *)
Definition covers (a : AnalyzerResult) (x : Z) : Prop := start a <= x < end_ a.

Definition disjoint (a b : AnalyzerResult) : Prop := forall x, ~ (covers a x /\ covers b x).

Definition end_desc (a b : AnalyzerResult) : Prop := end_ b <= end_ a.

(** * Properties *)

(** ** Association lists *)

Lemma assoc_get_set_eq {A : Type} (k : string) (v : A) (d : list (string * A)) :
  assoc_get k (assoc_set k v d) = Some v.
Proof.
  induction d as [|[k' v'] t IH]; simpl.
  - rewrite String.eqb_refl. reflexivity.
  - destruct (String.eqb k k') eqn:E; simpl.
    + rewrite String.eqb_refl. reflexivity.
    + rewrite E. exact IH.
Qed.

Lemma assoc_get_set_neq {A : Type} (k k' : string) (v : A) (d : list (string * A)) :
  k <> k' -> assoc_get k (assoc_set k' v d) = assoc_get k d.
Proof.
  intros Hne.
  assert (Hkk : String.eqb k k' = false) by (apply String.eqb_neq; exact Hne).
  induction d as [|[k'' v'] t IH]; simpl.
  - rewrite Hkk. reflexivity.
  - destruct (String.eqb k' k'') eqn:E; simpl.
    + apply String.eqb_eq in E. subst k''. rewrite Hkk. reflexivity.
    + rewrite IH. reflexivity.
Qed.

Lemma assoc_set_set {A : Type} (k : string) (v v' : A) (d : list (string * A)) :
  assoc_set k v (assoc_set k v' d) = assoc_set k v d.
Proof.
  induction d as [|[k'' w] t IH]; simpl.
  - rewrite String.eqb_refl. reflexivity.
  - destruct (String.eqb k k'') eqn:E; simpl.
    + rewrite String.eqb_refl. reflexivity.
    + rewrite E, IH. reflexivity.
Qed.

Lemma assoc_set_cons {A : Type} (k : string) (v : A) (d : list (string * A)) :
  exists p t, assoc_set k v d = p :: t.
Proof.
  destruct d as [|[k' v'] t]; simpl.
  - eexists _, _. reflexivity.
  - destruct (String.eqb k k'); eexists _, _; reflexivity.
Qed.

Lemma tag_entity_type_idem (l : string) (d : dict) :
  tag_entity_type l (tag_entity_type l d) = tag_entity_type l d.
Proof. unfold tag_entity_type. apply assoc_set_set. Qed.

Lemma tag_entity_type_get (l : string) (d : dict) :
  dict_get "entity_type" (tag_entity_type l d) = VStr l.
Proof. unfold dict_get, tag_entity_type. rewrite assoc_get_set_eq. reflexivity. Qed.

Lemma with_anonymizers_twice (a a' : list (string * dict)) (r : request) :
  with_anonymizers_ a (with_anonymizers_ a' r) = with_anonymizers_ a r.
Proof. destruct r; reflexivity. Qed.

Lemma with_default_twice (d d' : dict) (r : request) :
  with_default d (with_default d' r) = with_default d r.
Proof. destruct r; reflexivity. Qed.

Lemma anonymizers_with_anonymizers_ (a : list (string * dict)) (r : request) :
  _anonymizers (with_anonymizers_ a r) = a.
Proof. reflexivity. Qed.

Lemma tag_entity_type_nonempty (l : string) (d : dict) : tag_entity_type l d <> [].
Proof.
  unfold tag_entity_type. destruct (assoc_set_cons "entity_type" (VStr l) d) as (h & t & ->).
  discriminate.
Qed.

(** The three branches of [get_anonymizer_dto]. *)
Lemma get_anonymizer_dto_exact (self : request) (l : string) (d : dict) :
  assoc_get l (_anonymizers self) = Some d -> d <> [] ->
  get_anonymizer_dto l self =
    (inr (tag_entity_type l d),
     with_anonymizers_ (assoc_set l (tag_entity_type l d) (_anonymizers self)) self).
Proof.
  intros H Hd. unfold get_anonymizer_dto. rewrite H.
  destruct d; [congruence | reflexivity].
Qed.

Definition falsy_entry (o : option dict) : Prop := o = None \/ o = Some [].

Lemma get_anonymizer_dto_default (self : request) (l : string) (d : dict) :
  falsy_entry (assoc_get l (_anonymizers self)) ->
  assoc_get "DEFAULT" (_anonymizers self) = Some d -> d <> [] ->
  get_anonymizer_dto l self =
    (inr (tag_entity_type l d),
     with_anonymizers_ (assoc_set "DEFAULT" (tag_entity_type l d) (_anonymizers self)) self).
Proof.
  intros [H | H] H' Hd; unfold get_anonymizer_dto; rewrite H, H';
    (destruct d; [congruence | reflexivity]).
Qed.

Lemma get_anonymizer_dto_builtin (self : request) (l : string) :
  falsy_entry (assoc_get l (_anonymizers self)) ->
  falsy_entry (assoc_get "DEFAULT" (_anonymizers self)) ->
  get_anonymizer_dto l self =
    match default_anonymizer self with
    | Some d => (inr (tag_entity_type l d), with_default (tag_entity_type l d) self)
    | None =>
        (inl (AttributeError
                "'AnonymizerRequest' object has no attribute 'default_anonymizer'"), self)
    end.
Proof.
  intros [H | H] [H' | H']; unfold get_anonymizer_dto; rewrite H, H'; reflexivity.
Qed.

Lemma entry_cases (o : option dict) :
  falsy_entry o \/ exists d, o = Some d /\ d <> [].
Proof.
  destruct o as [[|p d]|].
  - left. right. reflexivity.
  - right. exists (p :: d). split; [reflexivity | discriminate].
  - left. left. reflexivity.
Qed.

(** ** C6: idempotence of policy resolution *)

(** C6. Resolving the same label twice against the same request returns
    identical policy values, and the second resolution leaves the request
    (and so the dict object returned by the first one) as the first left it. *)
Theorem get_anonymizer_dto_idempotent (self : request) (entity_type : string) :
  match get_anonymizer_dto entity_type self with
  | (r1, self1) =>
      match get_anonymizer_dto entity_type self1 with
      | (r2, self2) => r1 = r2 /\ self2 = self1
      end
  end.
Proof.
  destruct (entry_cases (assoc_get entity_type (_anonymizers self)))
    as [Hf | (d & Hd & Hne)].
  - destruct (entry_cases (assoc_get "DEFAULT" (_anonymizers self)))
      as [Hf' | (d & Hd & Hne)].
    + rewrite (get_anonymizer_dto_builtin _ _ Hf Hf').
      destruct (default_anonymizer self) as [d|] eqn:E.
      * rewrite get_anonymizer_dto_builtin by exact Hf || exact Hf'.
        simpl. rewrite tag_entity_type_idem, with_default_twice. split; reflexivity.
      * rewrite (get_anonymizer_dto_builtin _ _ Hf Hf'), E. split; reflexivity.
    + rewrite (get_anonymizer_dto_default _ _ _ Hf Hd Hne).
      assert (Hne' : entity_type <> "DEFAULT").
      { intros ->. destruct Hf as [Hf | Hf]; congruence. }
      rewrite (get_anonymizer_dto_default _ _ (tag_entity_type entity_type d)).
      * rewrite tag_entity_type_idem, anonymizers_with_anonymizers_, assoc_set_set,
          with_anonymizers_twice. split; reflexivity.
      * rewrite anonymizers_with_anonymizers_, (assoc_get_set_neq _ _ _ _ Hne'). exact Hf.
      * apply assoc_get_set_eq.
      * apply tag_entity_type_nonempty.
  - rewrite (get_anonymizer_dto_exact _ _ _ Hd Hne).
    rewrite (get_anonymizer_dto_exact _ _ (tag_entity_type entity_type d)).
    + rewrite tag_entity_type_idem, anonymizers_with_anonymizers_, assoc_set_set,
        with_anonymizers_twice. split; reflexivity.
    + apply assoc_get_set_eq.
    + apply tag_entity_type_nonempty.
Qed.

(** ** Invariants of the constructor *)

Definition preserves {A : Type} (P : request -> Prop) (m : M A) : Prop :=
  forall self, P self -> P (snd (m self)).

Lemma preserves_ret {A : Type} (P : request -> Prop) (a : A) : preserves P (ret a).
Proof. intros s H. exact H. Qed.

Lemma preserves_raise {A : Type} (P : request -> Prop) (e : error) :
  preserves P (@raise A e).
Proof. intros s H. exact H. Qed.

Lemma preserves_gets {A : Type} (P : request -> Prop) (f : request -> A) :
  preserves P (gets f).
Proof. intros s H. exact H. Qed.

Lemma preserves_lift {A : Type} (P : request -> Prop) (x : error + A) :
  preserves P (lift x).
Proof. intros s H. destruct x; exact H. Qed.

Lemma preserves_bind {A B : Type} (P : request -> Prop) (m : M A) (f : A -> M B) :
  preserves P m -> (forall a, preserves P (f a)) -> preserves P (bind m f).
Proof.
  intros Hm Hf s Hs. unfold bind.
  specialize (Hm s Hs). destruct (m s) as [[e | a] s']; simpl in *.
  - exact Hm.
  - apply Hf. exact Hm.
Qed.

Lemma preserves_for_each {A : Type} (P : request -> Prop) (body : A -> M unit) (l : list A) :
  (forall x, preserves P (body x)) -> preserves P (for_each body l).
Proof.
  intros Hb. induction l as [|x t IH]; simpl.
  - apply preserves_ret.
  - apply preserves_bind; [apply Hb | intros; exact IH].
Qed.

Ltac preserves_step :=
  match goal with
  | |- preserves _ (bind _ _) => apply preserves_bind; intros
  | |- preserves _ (ret _) => apply preserves_ret
  | |- preserves _ (raise _) => apply preserves_raise
  | |- preserves _ (gets _) => apply preserves_gets
  | |- preserves _ (lift _) => apply preserves_lift
  | |- preserves _ (for_each _ _) => apply preserves_for_each; intros
  | |- preserves _ (if ?b then _ else _) => destruct b
  | |- preserves _ (match ?x with _ => _ end) => destruct x
  | |- preserves _ (modify _) => let s := fresh "s" in let H := fresh "H" in
                                  intros s H; simpl
  end.

Ltac preserves_tac := repeat preserves_step.

(** Every policy stored in [_anonymizers] is a non-empty dict, so each of
    them is truthy for [get_anonymizer_dto]. *)
Definition stored_nonempty (self : request) : Prop :=
  forall k d, assoc_get k (_anonymizers self) = Some d -> d <> [].

Lemma assoc_get_set_cases {A : Type} (k k' : string) (v : A) (d : list (string * A)) (w : A) :
  assoc_get k (assoc_set k' v d) = Some w -> w = v \/ assoc_get k d = Some w.
Proof.
  destruct (String.eqb k k') eqn:E.
  - apply String.eqb_eq in E. subst k'. rewrite assoc_get_set_eq. left. congruence.
  - apply String.eqb_neq in E. rewrite (assoc_get_set_neq _ _ _ _ E). right. exact H.
Qed.

Lemma handle_text_preserves (P : request -> Prop) (data : dict) :
  (forall s t, P s -> P (with_text t s)) -> preserves P (handle_text data).
Proof. intros HP. unfold handle_text. preserves_tac; auto. Qed.

Lemma handle_analyzer_results_preserves (P : request -> Prop) (data : dict) :
  (forall s l, P s -> P (with_analysis_results l s)) ->
  preserves P (handle_analyzer_results data).
Proof.
  intros HP. unfold handle_analyzer_results. preserves_tac; auto.
  unfold handle_analyzer_result. preserves_tac; auto.
Qed.

Lemma handle_anonymizers_preserves (P : request -> Prop) (data : dict) :
  (forall s key a d, P s -> P (with_anonymizers_
                                 (assoc_set key (assoc_set "anonymizer" a d) (_anonymizers s)) s)) ->
  preserves P (handle_anonymizers data).
Proof.
  intros HP. unfold handle_anonymizers. preserves_tac; auto.
  unfold handle_anonymizer_item, get_anonymizer. preserves_tac; auto.
Qed.

Lemma validate_preserves (P : request -> Prop) (data : dict) :
  (forall s t, P s -> P (with_text t s)) ->
  (forall s l, P s -> P (with_analysis_results l s)) ->
  (forall s key a d, P s -> P (with_anonymizers_
                                 (assoc_set key (assoc_set "anonymizer" a d) (_anonymizers s)) s)) ->
  preserves P (validate_and_insert_input data).
Proof.
  intros H1 H2 H3. unfold validate_and_insert_input.
  apply preserves_bind; [apply handle_text_preserves; exact H1 | intros _].
  apply preserves_bind; [apply handle_analyzer_results_preserves; exact H2 | intros _].
  apply handle_anonymizers_preserves; exact H3.
Qed.

Lemma validate_keeps_registry (data reg : dict) (self : request) :
  anonymizers self = reg ->
  anonymizers (snd (validate_and_insert_input data self)) = reg.
Proof.
  apply (validate_preserves (fun s => anonymizers s = reg)); intros; exact H.
Qed.

Lemma validate_stored_nonempty (data : dict) (self : request) :
  stored_nonempty self -> stored_nonempty (snd (validate_and_insert_input data self)).
Proof.
  apply validate_preserves; unfold stored_nonempty; simpl; intros; eauto.
  destruct (assoc_get_set_cases _ _ _ _ _ H0) as [-> | Hw]; eauto.
  destruct (assoc_set_cons "anonymizer" a d) as (h & t & ->). discriminate.
Qed.

(** A constructed request: its registry is the one given, its built-in
    default is the [replace] policy of that registry, and every stored policy
    is non-empty. *)
Lemma constructed_request (data reg : dict) (self : request) :
  AnonymizerRequest data reg = inr self ->
  exists a s1, assoc_get "replace" reg = Some a
    /\ validate_and_insert_input data (new_request reg) = (inr tt, s1)
    /\ self = with_default [("type", VStr "replace"); ("anonymizer", a)] s1
    /\ anonymizers self = reg
    /\ stored_nonempty self.
Proof.
  unfold AnonymizerRequest, init, bind.
  pose proof (validate_keeps_registry data reg (new_request reg) eq_refl) as Hreg.
  pose proof (validate_stored_nonempty data (new_request reg)) as Hne.
  destruct (validate_and_insert_input data (new_request reg)) as [[e | []] s1] eqn:EV;
    [discriminate |].
  simpl in Hreg, Hne.
  unfold set_default_anonymizer, bind, gets. simpl. rewrite Hreg.
  destruct (assoc_get "replace" reg) as [a|] eqn:Ea; [| discriminate].
  intros Hs. injection Hs as <-.
  exists a, s1. repeat split.
  - exact Hreg.
  - apply Hne. intros k d Hk. discriminate.
Qed.

Lemma validate_no_policies (data : dict) (self : request) :
  dict_get "anonymizers" data = VNone -> _anonymizers self = [] ->
  _anonymizers (snd (validate_and_insert_input data self)) = [].
Proof.
  intros Hn. revert self.
  change (preserves (fun s => _anonymizers s = []) (validate_and_insert_input data)).
  unfold validate_and_insert_input.
  apply preserves_bind; [apply handle_text_preserves; intros; exact H | intros _].
  apply preserves_bind; [apply handle_analyzer_results_preserves; intros; exact H | intros _].
  unfold handle_anonymizers. rewrite Hn. apply preserves_ret.
Qed.

(** ** C1: three-tier policy resolution *)

(** C1. On a constructed request, [get_anonymizer_dto] returns the entry
    stored under the label if there is one, else the [DEFAULT] entry if there
    is one, else the built-in [replace] policy built from the registry; the
    result always carries the label in ["entity_type"]; and without an
    ["anonymizers"] map every label resolves to the built-in [replace]
    policy. *)
Theorem get_anonymizer_dto_fallback (data reg : dict) (self : request) (label : string) :
  AnonymizerRequest data reg = inr self ->
  exists a, assoc_get "replace" reg = Some a
    /\ fst (get_anonymizer_dto label self) =
         inr (tag_entity_type label
                (match assoc_get label (_anonymizers self) with
                 | Some d => d
                 | None =>
                     match assoc_get "DEFAULT" (_anonymizers self) with
                     | Some d => d
                     | None => [("type", VStr "replace"); ("anonymizer", a)]
                     end
                 end))
    /\ (forall d, fst (get_anonymizer_dto label self) = inr d ->
                  dict_get "entity_type" d = VStr label)
    /\ (dict_get "anonymizers" data = VNone ->
        fst (get_anonymizer_dto label self) =
          inr [("type", VStr "replace"); ("anonymizer", a); ("entity_type", VStr label)]).
Proof.
  intros H.
  destruct (constructed_request _ _ _ H) as (a & s1 & Ha & Hv & Hself & Hreg & Hne).
  assert (Hres : fst (get_anonymizer_dto label self) =
         inr (tag_entity_type label
                (match assoc_get label (_anonymizers self) with
                 | Some d => d
                 | None =>
                     match assoc_get "DEFAULT" (_anonymizers self) with
                     | Some d => d
                     | None => [("type", VStr "replace"); ("anonymizer", a)]
                     end
                 end))).
  { destruct (assoc_get label (_anonymizers self)) as [d|] eqn:E1.
    - rewrite (get_anonymizer_dto_exact _ _ _ E1 (Hne _ _ E1)). reflexivity.
    - destruct (assoc_get "DEFAULT" (_anonymizers self)) as [d|] eqn:E2.
      + rewrite (get_anonymizer_dto_default _ _ _ (or_introl E1) E2 (Hne _ _ E2)).
        reflexivity.
      + rewrite (get_anonymizer_dto_builtin _ _ (or_introl E1) (or_introl E2)).
        rewrite Hself. reflexivity. }
  exists a. split; [exact Ha |]. split; [exact Hres |]. split.
  - intros d Hd. rewrite Hres in Hd. injection Hd as <-. apply tag_entity_type_get.
  - intros Hn. rewrite Hres.
    assert (Hst : _anonymizers self = []).
    { rewrite Hself. simpl.
      pose proof (validate_no_policies data (new_request reg) Hn eq_refl) as Hs.
      rewrite Hv in Hs. exact Hs. }
    rewrite Hst. reflexivity.
Qed.

(** ** C5: policy resolution tags the stored policy in place *)

(** The stored entry [get_anonymizer_dto] resolves to: the label's own
    entry, the [DEFAULT] entry, or [None] for the built-in default. *)
Definition resolved_key (self : request) (l : string) : option string :=
  match assoc_get l (_anonymizers self) with
  | Some (_ :: _) => Some l
  | _ =>
      match assoc_get "DEFAULT" (_anonymizers self) with
      | Some (_ :: _) => Some "DEFAULT"
      | _ => None
      end
  end.

Lemma assoc_get_set_if {A : Type} (k key : string) (v : A) (d : list (string * A)) :
  assoc_get k (assoc_set key v d) = if String.eqb k key then Some v else assoc_get k d.
Proof.
  destruct (String.eqb k key) eqn:E.
  - apply String.eqb_eq in E. subst. apply assoc_get_set_eq.
  - apply String.eqb_neq in E. apply assoc_get_set_neq. exact E.
Qed.

Lemma tag_entity_type_other (l k : string) (d : dict) :
  k <> "entity_type" -> dict_get k (tag_entity_type l d) = dict_get k d.
Proof.
  intros Hk. unfold dict_get, tag_entity_type. rewrite (assoc_get_set_neq _ _ _ _ Hk).
  reflexivity.
Qed.

(** C5 (as amended). Policy resolution is not read-only: [get_anonymizer_dto]
    assigns the label to the ["entity_type"] key of the policy object it
    resolves (the label's entry, else the [DEFAULT] entry, else the built-in
    default) in place and returns that object; every other stored entry, every
    other key of the resolved policy and the other attributes of the request
    are left as they were. *)
Theorem get_anonymizer_dto_tags_in_place (self : request) (l : string) :
  match get_anonymizer_dto l self with
  | (r, self') =>
      anonymizers self' = anonymizers self
      /\ _analysis_results self' = _analysis_results self
      /\ _text self' = _text self
      /\ match resolved_key self l with
         | Some key =>
             exists d, assoc_get key (_anonymizers self) = Some d
               /\ r = inr (tag_entity_type l d)
               /\ default_anonymizer self' = default_anonymizer self
               /\ (forall k, assoc_get k (_anonymizers self') =
                             if String.eqb k key then Some (tag_entity_type l d)
                             else assoc_get k (_anonymizers self))
         | None =>
             _anonymizers self' = _anonymizers self
             /\ match default_anonymizer self with
                | Some d => r = inr (tag_entity_type l d)
                            /\ default_anonymizer self' = Some (tag_entity_type l d)
                | None => self' = self
                end
         end
      /\ (forall k d, k <> "entity_type" -> dict_get k (tag_entity_type l d) = dict_get k d)
  end.
Proof.
  unfold resolved_key.
  destruct (entry_cases (assoc_get l (_anonymizers self))) as [Hf | (d & Hd & Hne)].
  - destruct (entry_cases (assoc_get "DEFAULT" (_anonymizers self)))
      as [Hf' | (d & Hd & Hne)].
    + rewrite (get_anonymizer_dto_builtin _ _ Hf Hf').
      assert (Hk : match assoc_get l (_anonymizers self) with
                   | Some (_ :: _) => Some l
                   | _ => match assoc_get "DEFAULT" (_anonymizers self) with
                          | Some (_ :: _) => Some "DEFAULT" | _ => None end
                   end = None)
        by (destruct Hf as [-> | ->]; destruct Hf' as [-> | ->]; reflexivity).
      rewrite Hk.
      destruct (default_anonymizer self) as [d|] eqn:E3;
        (refine (conj _ (conj _ (conj _ (conj _ (tag_entity_type_other l)))));
         [reflexivity | reflexivity | reflexivity | split; [reflexivity |]]).
      * split; reflexivity.
      * reflexivity.
    + rewrite (get_anonymizer_dto_default _ _ _ Hf Hd Hne).
      destruct d as [|p d0]; [congruence |].
      assert (Hk : match assoc_get l (_anonymizers self) with
                   | Some (_ :: _) => Some l
                   | _ => match assoc_get "DEFAULT" (_anonymizers self) with
                          | Some (_ :: _) => Some "DEFAULT" | _ => None end
                   end = Some "DEFAULT")
        by (destruct Hf as [-> | ->]; rewrite Hd; reflexivity).
      rewrite Hk.
      refine (conj _ (conj _ (conj _ (conj _ (tag_entity_type_other l)))));
        [reflexivity | reflexivity | reflexivity |].
      exists (p :: d0). split; [exact Hd | split; [reflexivity | split; [reflexivity |]]].
      intros k. apply assoc_get_set_if.
  - rewrite (get_anonymizer_dto_exact _ _ _ Hd Hne).
    destruct d as [|p d0]; [congruence |]. rewrite Hd.
    refine (conj _ (conj _ (conj _ (conj _ (tag_entity_type_other l)))));
      [reflexivity | reflexivity | reflexivity |].
    exists (p :: d0). split; [exact Hd | split; [reflexivity | split; [reflexivity |]]].
    intros k. apply assoc_get_set_if.
Qed.

(** ** The text and span checks *)

Lemma init_empty_text (data reg : dict) :
  truthy (dict_get "text" data) = false ->
  init data reg =
    (inl (InvalidParamException empty_text_msg),
     with_text (dict_get "text" data) (new_request reg)).
Proof.
  intros H. unfold init, validate_and_insert_input, handle_text, bind, modify.
  rewrite H. reflexivity.
Qed.

Lemma text_field_empty (data : dict) :
  assoc_get "text" data = None \/ assoc_get "text" data = Some (VStr "") ->
  truthy (dict_get "text" data) = false.
Proof. unfold dict_get. intros [-> | ->]; reflexivity. Qed.

(** C7. A request whose text is absent or empty fails with
    ["Invalid input, text can not be empty"], before any span or policy is
    looked at: the spans and policies of the request object are still empty
    and no default policy has been built. *)
Theorem empty_text_rejected (data reg : dict) :
  assoc_get "text" data = None \/ assoc_get "text" data = Some (VStr "") ->
  match init data reg with
  | (res, self) =>
      res = inl (InvalidParamException "Invalid input, text can not be empty")
      /\ _analysis_results self = []
      /\ _anonymizers self = []
      /\ default_anonymizer self = None
      /\ anonymizers self = reg
  end
  /\ AnonymizerRequest data reg =
       inl (InvalidParamException "Invalid input, text can not be empty").
Proof.
  intros H. pose proof (init_empty_text data reg (text_field_empty data H)) as Hi.
  unfold AnonymizerRequest. rewrite Hi.
  split; [repeat split | reflexivity].
Qed.

Lemma truthy_nonempty_str (txt : string) : txt <> "" -> truthy (VStr txt) = true.
Proof.
  intros H. simpl. destruct (String.eqb txt "") eqn:E; [| reflexivity].
  apply String.eqb_eq in E. contradiction.
Qed.

Lemma handle_text_ok (data : dict) (txt : string) (self : request) :
  dict_get "text" data = VStr txt -> txt <> "" ->
  handle_text data self = (inr tt, with_text (VStr txt) self).
Proof.
  intros Ht Hne. unfold handle_text, bind, modify. rewrite Ht, (truthy_nonempty_str _ Hne).
  reflexivity.
Qed.

Lemma handle_analyzer_results_empty (data : dict) (self : request) :
  assoc_get "analyzer_results" data = None \/
  assoc_get "analyzer_results" data = Some (VList []) ->
  handle_analyzer_results data self = (inl (InvalidParamException empty_results_msg), self).
Proof.
  intros H. unfold handle_analyzer_results, dict_get.
  destruct H as [-> | ->]; reflexivity.
Qed.

(** C2 (as amended). With a non-empty text, a request whose
    ["analyzer_results"] is absent or an empty list fails with
    ["Invalid input, analyzer results can not be empty"]; with an absent or
    empty text the text check runs first and its error is raised instead. *)
Theorem empty_results_rejected (data reg : dict) (txt : string) :
  assoc_get "analyzer_results" data = None \/
  assoc_get "analyzer_results" data = Some (VList []) ->
  (dict_get "text" data = VStr txt -> txt <> "" ->
   AnonymizerRequest data reg =
     inl (InvalidParamException "Invalid input, analyzer results can not be empty"))
  /\ (assoc_get "text" data = None \/ assoc_get "text" data = Some (VStr "") ->
      AnonymizerRequest data reg =
        inl (InvalidParamException "Invalid input, text can not be empty")).
Proof.
  intros Hr. split.
  - intros Ht Hne. unfold AnonymizerRequest, init, validate_and_insert_input.
    unfold bind at 1 2. rewrite (handle_text_ok _ _ _ Ht Hne).
    unfold bind at 1. rewrite (handle_analyzer_results_empty _ _ Hr). reflexivity.
  - intros Ht. unfold AnonymizerRequest.
    rewrite (init_empty_text data reg (text_field_empty data Ht)). reflexivity.
Qed.

Lemma with_analysis_results_twice (l l' : list AnalyzerResult) (r : request) :
  with_analysis_results l (with_analysis_results l' r) = with_analysis_results l r.
Proof. destruct r; reflexivity. Qed.

Lemma with_analysis_results_same (r : request) :
  with_analysis_results (_analysis_results r) r = r.
Proof. destruct r; reflexivity. Qed.

Lemma bind_ok {A B : Type} (m : M A) (f : A -> M B) (s s' : request) (a : A) :
  m s = (inr a, s') -> bind m f s = f a s'.
Proof. intros H. unfold bind. rewrite H. reflexivity. Qed.

Lemma bind_err {A B : Type} (m : M A) (f : A -> M B) (s s' : request) (e : error) :
  m s = (inl e, s') -> bind m f s = (inl e, s').
Proof. intros H. unfold bind. rewrite H. reflexivity. Qed.

Lemma handle_analyzer_result_eq (text_len : Z) (v : value) (r : AnalyzerResult)
  (self : request) :
  analyzer_result_of v = inr r ->
  handle_analyzer_result text_len v self =
    if out_of_bounds r text_len
    then (inl (InvalidParamException (out_of_bounds_msg (start r) (end_ r) text_len)), self)
    else (inr tt, with_analysis_results (_analysis_results self ++ [r])%list self).
Proof.
  intros H. unfold handle_analyzer_result, bind, lift. rewrite H.
  unfold validate_position_in_text. simpl.
  destruct (out_of_bounds r text_len); reflexivity.
Qed.

(** The span loop stops at the first out-of-bounds span, with that span's
    message, and otherwise appends every span. *)
Lemma span_loop (text_len : Z) (raws : list value) (rs : list AnalyzerResult)
  (self : request) :
  Forall2 (fun v r => analyzer_result_of v = inr r) raws rs ->
  match find (fun r => out_of_bounds r text_len) rs with
  | Some r =>
      fst (for_each (handle_analyzer_result text_len) raws self) =
        inl (InvalidParamException (out_of_bounds_msg (start r) (end_ r) text_len))
  | None =>
      for_each (handle_analyzer_result text_len) raws self =
        (inr tt, with_analysis_results (_analysis_results self ++ rs)%list self)
  end.
Proof.
  intros H. revert self. induction H as [|v r raws' rs' Hv Hrest IH]; intros self.
  - simpl. rewrite List.app_nil_r, with_analysis_results_same. reflexivity.
  - change (for_each (handle_analyzer_result text_len) (v :: raws') self)
      with (bind (handle_analyzer_result text_len v)
              (fun _ => for_each (handle_analyzer_result text_len) raws') self).
    pose proof (handle_analyzer_result_eq text_len v r self Hv) as Hb.
    simpl find. destruct (out_of_bounds r text_len) eqn:Eo.
    + rewrite (bind_err _ _ _ _ _ Hb). reflexivity.
    + rewrite (bind_ok _ _ _ _ _ Hb).
      specialize (IH (with_analysis_results (_analysis_results self ++ [r])%list self)).
      destruct (find (fun r0 => out_of_bounds r0 text_len) rs').
      * exact IH.
      * rewrite IH, with_analysis_results_twice. destruct self. simpl.
        rewrite <- List.app_assoc. reflexivity.
Qed.

Lemma out_of_bounds_iff (r : AnalyzerResult) (text_len : Z) :
  out_of_bounds r text_len = true <->
  (start r < 0 \/ end_ r > text_len \/ start r >= end_ r).
Proof.
  unfold out_of_bounds.
  rewrite !Bool.orb_true_iff, Z.ltb_lt, Z.ltb_lt, Z.leb_le. lia.
Qed.

(** C3. For a non-empty text and a non-empty list of well-formed spans,
    construction fails at the first span with [start < 0],
    [end > len(text)] or [start >= end], with the message
    ["Invalid analyzer result, start: S and end: E, while text length is only L."];
    when every span has [0 <= start < end <= len(text)] all of them are
    accepted, in order. *)
Theorem out_of_bounds_rejected (data reg : dict) (txt : string)
  (raws : list value) (rs : list AnalyzerResult) :
  dict_get "text" data = VStr txt -> txt <> "" ->
  dict_get "analyzer_results" data = VList raws -> raws <> [] ->
  Forall2 (fun v r => analyzer_result_of v = inr r) raws rs ->
  (forall r, out_of_bounds r (Z.of_nat (String.length txt)) = true <->
             (start r < 0 \/ end_ r > Z.of_nat (String.length txt) \/ start r >= end_ r))
  /\ match find (fun r => out_of_bounds r (Z.of_nat (String.length txt))) rs with
     | Some r =>
         AnonymizerRequest data reg =
           inl (InvalidParamException
                  ("Invalid analyzer result, start: " ++ str_of_Z (start r)
                   ++ " and end: " ++ str_of_Z (end_ r)
                   ++ ", while text length is only "
                   ++ str_of_Z (Z.of_nat (String.length txt)) ++ "."))
     | None =>
         exists self,
           (handle_text data ;;; handle_analyzer_results data) (new_request reg) =
             (inr tt, self)
           /\ _analysis_results self = rs
     end.
Proof.
  intros Ht Hne Hr Hraws Hparse. split; [intros; apply out_of_bounds_iff |].
  pose proof (span_loop (Z.of_nat (String.length txt)) raws rs
                (with_text (VStr txt) (new_request reg)) Hparse) as Hloop.
  assert (Hhar : forall self, handle_analyzer_results data self =
            for_each (handle_analyzer_result (Z.of_nat (String.length txt))) raws self).
  { intros self. unfold handle_analyzer_results. rewrite Hr, Ht.
    destruct raws as [|v raws']; [contradiction |]. reflexivity. }
  destruct (find (fun r => out_of_bounds r (Z.of_nat (String.length txt))) rs) as [r|].
  - unfold AnonymizerRequest, init, validate_and_insert_input.
    unfold bind at 1 2. rewrite (handle_text_ok _ _ _ Ht Hne).
    unfold bind at 1. rewrite Hhar.
    destruct (for_each _ raws _) as [res s]. simpl in Hloop. subst res. reflexivity.
  - eexists. split.
    + unfold bind. rewrite (handle_text_ok _ _ _ Ht Hne), Hhar, Hloop. reflexivity.
    + reflexivity.
Qed.

(** ** The policy checks *)

Lemma bind_assoc {A B C : Type} (m : M A) (f : A -> M B) (g : B -> M C) (s : request) :
  bind (bind m f) g s = bind m (fun a => bind (f a) g) s.
Proof. unfold bind. destruct (m s) as [[e | a] s']; reflexivity. Qed.

Lemma for_each_app {A : Type} (body : A -> M unit) (l1 l2 : list A) (s : request) :
  for_each body (l1 ++ l2)%list s = bind (for_each body l1) (fun _ => for_each body l2) s.
Proof.
  revert s. induction l1 as [|x t IH]; intros s; simpl.
  - reflexivity.
  - rewrite bind_assoc. specialize (IH). unfold bind in *.
    destruct (body x s) as [[e | []] s']; [reflexivity |]. apply IH.
Qed.

(** Once the text and span checks have passed, validation continues with
    the policies, against the registry given to the constructor. *)
Lemma after_span_checks (data reg : dict) (s1 : request) :
  (handle_text data ;;; handle_analyzer_results data) (new_request reg) = (inr tt, s1) ->
  anonymizers s1 = reg
  /\ validate_and_insert_input data (new_request reg) = handle_anonymizers data s1.
Proof.
  intros H. split.
  - assert (Hp : preserves (fun s => anonymizers s = reg)
                   (handle_text data ;;; handle_analyzer_results data)).
    { apply preserves_bind; [apply handle_text_preserves; intros; exact H0 | intros _].
      apply handle_analyzer_results_preserves; intros; exact H0. }
    specialize (Hp (new_request reg) eq_refl). rewrite H in Hp. exact Hp.
  - unfold validate_and_insert_input. rewrite <- bind_assoc.
    apply (bind_ok _ (fun _ => handle_anonymizers data) _ _ _ H).
Qed.

Lemma handle_anonymizer_item_eq (key t : string) (d : dict) (self : request) :
  dict_get "type" d = VStr t ->
  handle_anonymizer_item (key, VDict d) self =
    if truthy (dict_get (lower t) (anonymizers self))
    then (inr tt, with_anonymizers_
                    (assoc_set key (assoc_set "anonymizer" (dict_get (lower t) (anonymizers self)) d)
                       (_anonymizers self)) self)
    else (inl (InvalidParamException (unknown_anonymizer_msg (lower t))), self).
Proof.
  intros Ht. unfold handle_anonymizer_item, get_anonymizer, bind, gets. rewrite Ht.
  destruct (truthy (dict_get (lower t) (anonymizers self))); reflexivity.
Qed.

Definition declares_kind (kv : string * value) : Prop :=
  exists d t, snd kv = VDict d /\ dict_get "type" d = VStr t.

Definition unregistered_kind (reg : dict) (kv : string * value) : Prop :=
  exists d t, snd kv = VDict d /\ dict_get "type" d = VStr t
              /\ truthy (dict_get (lower t) reg) = false.

Lemma policy_loop (reg : dict) (items : dict) (self : request) :
  anonymizers self = reg -> Forall declares_kind items ->
  match for_each handle_anonymizer_item items self with
  | (inl e, _) => exists k, e = InvalidParamException (unknown_anonymizer_msg k)
                            /\ exists kv, In kv items /\ unregistered_kind reg kv
  | (inr _, s') => anonymizers s' = reg
                   /\ forall kv, In kv items -> ~ unregistered_kind reg kv
  end.
Proof.
  intros Hreg Hall. revert self Hreg.
  induction Hall as [|[key v] t Hkv Hrest IH]; intros self Hreg; simpl.
  - split; [exact Hreg | intros kv Hin; simpl in Hin; contradiction].
  - destruct Hkv as (d & ty & Hv & Hty). simpl in Hv. subst v.
    pose proof (handle_anonymizer_item_eq key ty d self Hty) as Hi.
    rewrite Hreg in Hi.
    destruct (truthy (dict_get (lower ty) reg)) eqn:Et.
    + rewrite (bind_ok _ _ _ _ _ Hi).
      match goal with
      | |- context [for_each handle_anonymizer_item t ?st] =>
          specialize (IH st Hreg); destruct (for_each handle_anonymizer_item t st) as [[e | u] s']
      end.
      * destruct IH as (k & Hk & kv & Hin & Hb). exists k. split; [exact Hk |].
        exists kv. split; [apply in_cons; exact Hin | exact Hb].
      * destruct IH as [Hs' Hnb]. split; [exact Hs' |].
        intros kv Hin. simpl in Hin. destruct Hin as [<- | Hin].
        -- intros (d' & t' & Hd' & Ht' & Hf). simpl in Hd'. injection Hd' as <-.
           rewrite Hty in Ht'. injection Ht' as <-. congruence.
        -- apply Hnb. exact Hin.
    + rewrite (bind_err _ _ _ _ _ Hi). exists (lower ty). split; [reflexivity |].
      exists (key, VDict d). split; [apply in_eq |].
      exists d, ty. split; [reflexivity | split; [exact Hty | exact Et]].
Qed.

(** C4. Once the text and spans have passed their checks, and every
    configured policy declares its kind as a string, construction fails with
    ["Invalid anonymizer class '...'."] exactly when the lower-cased kind of
    some policy has no registered implementation. *)
Theorem unknown_kind_rejected (data reg : dict) (s1 : request) (items : dict) :
  (handle_text data ;;; handle_analyzer_results data) (new_request reg) = (inr tt, s1) ->
  dict_get "anonymizers" data = VDict items ->
  Forall (fun kv => exists d t, snd kv = VDict d /\ dict_get "type" d = VStr t) items ->
  (exists k, AnonymizerRequest data reg =
               inl (InvalidParamException ("Invalid anonymizer class '" ++ k ++ "'.")))
  <-> (exists key d t, In (key, VDict d) items /\ dict_get "type" d = VStr t
                       /\ truthy (dict_get (lower t) reg) = false).
Proof.
  intros H Hitems Hall.
  destruct (after_span_checks _ _ _ H) as [Hreg Hv].
  pose proof (policy_loop reg items s1 Hreg Hall) as Hloop.
  unfold AnonymizerRequest, init.
  unfold handle_anonymizers in Hv. rewrite Hitems in Hv.
  unfold bind. rewrite Hv.
  destruct (for_each handle_anonymizer_item items s1) as [[e | []] s2].
  - destruct Hloop as (k & -> & kv & Hin & (d & t & Hd & Ht & Hf)).
    split; intros _.
    + destruct kv as [key v]. simpl in Hd. subst v. exists key, d, t. auto.
    + exists k. reflexivity.
  - destruct Hloop as [Hs2 Hnb]. split.
    + intros (k & Hk). exfalso.
      unfold set_default_anonymizer, bind, gets in Hk. simpl in Hk. rewrite Hs2 in Hk.
      destruct (assoc_get "replace" reg); discriminate.
    + intros (key & d & t & Hin & Ht & Hf). exfalso.
      apply (Hnb _ Hin). exists d, t. auto.
Qed.

Definition registered_kind (reg : dict) (kv : string * value) : Prop :=
  exists d t, snd kv = VDict d /\ dict_get "type" d = VStr t
              /\ truthy (dict_get (lower t) reg) = true.

Lemma policy_loop_ok (reg : dict) (items : dict) (self : request) :
  anonymizers self = reg -> Forall (registered_kind reg) items ->
  exists s', for_each handle_anonymizer_item items self = (inr tt, s')
             /\ anonymizers s' = reg.
Proof.
  intros Hreg Hall. revert self Hreg.
  induction Hall as [|[key v] t Hkv Hrest IH]; intros self Hreg.
  - exists self. split; [reflexivity | exact Hreg].
  - destruct Hkv as (d & ty & Hv & Hty & Ht). simpl in Hv. subst v.
    pose proof (handle_anonymizer_item_eq key ty d self Hty) as Hi.
    rewrite Hreg, Ht in Hi. simpl. rewrite (bind_ok _ _ _ _ _ Hi).
    apply IH. exact Hreg.
Qed.

(** C9. When the text and spans have passed their checks and the policies
    before it declare registered kinds, a policy without a ["type"] key makes
    construction raise [AttributeError] (from [None.lower()]), not an
    [InvalidParamException]. *)
Theorem missing_type_attribute_error (data reg : dict) (s1 : request)
  (pre post : dict) (key : string) (d : dict) :
  (handle_text data ;;; handle_analyzer_results data) (new_request reg) = (inr tt, s1) ->
  dict_get "anonymizers" data = VDict (pre ++ (key, VDict d) :: post)%list ->
  Forall (fun kv => exists d t, snd kv = VDict d /\ dict_get "type" d = VStr t
                                /\ truthy (dict_get (lower t) reg) = true) pre ->
  assoc_get "type" d = None ->
  AnonymizerRequest data reg =
    inl (AttributeError "'NoneType' object has no attribute 'lower'")
  /\ forall msg, AnonymizerRequest data reg <> inl (InvalidParamException msg).
Proof.
  intros H Hitems Hpre Hty.
  destruct (after_span_checks _ _ _ H) as [Hreg Hv].
  destruct (policy_loop_ok reg pre s1 Hreg Hpre) as (s2 & Hs2 & _).
  assert (Hinit : AnonymizerRequest data reg =
                    inl (AttributeError "'NoneType' object has no attribute 'lower'")).
  { unfold AnonymizerRequest, init. unfold bind at 1. rewrite Hv.
    unfold handle_anonymizers. rewrite Hitems, for_each_app.
    rewrite (bind_ok _ _ _ _ _ Hs2). simpl.
    unfold handle_anonymizer_item at 1, get_anonymizer, dict_get at 1. rewrite Hty.
    reflexivity. }
  split; [exact Hinit |]. intros msg. rewrite Hinit. discriminate.
Qed.

(** C10. Once validation has passed, construction looks up ["replace"] in the
    registry unconditionally: without it the constructor raises
    [KeyError('replace')], whatever policies the request configures. *)
Theorem missing_replace_key_error (data reg : dict) (s1 : request) :
  validate_and_insert_input data (new_request reg) = (inr tt, s1) ->
  assoc_get "replace" reg = None ->
  AnonymizerRequest data reg = inl (KeyError "replace").
Proof.
  intros Hv Hr.
  pose proof (validate_keeps_registry data reg (new_request reg) eq_refl) as Hreg.
  rewrite Hv in Hreg. simpl in Hreg.
  unfold AnonymizerRequest, init. rewrite (bind_ok _ _ _ _ _ Hv).
  unfold set_default_anonymizer, bind, gets. rewrite Hreg, Hr. reflexivity.
Qed.

(** ** C8: the resolved span set *)

Section OrdPairs.
Variable A : Type.
Variable R : A -> A -> Prop.

Lemma ForallOrdPairs_snoc (l : list A) (x : A) :
  ForallOrdPairs R l -> Forall (fun a => R a x) l -> ForallOrdPairs R (l ++ [x])%list.
Proof.
  induction l as [|a t IH]; intros Hp Hx; simpl.
  - constructor; [constructor | constructor].
  - inversion Hp as [|a' t' Ha Ht]; subst. inversion Hx as [|a' t' Hax Htx]; subst.
    constructor.
    + apply Forall_app. split; [exact Ha | constructor; [exact Hax | constructor]].
    + apply IH; assumption.
Qed.

Lemma StronglySorted_ForallOrdPairs (l : list A) :
  StronglySorted R l -> ForallOrdPairs R l.
Proof.
  induction 1; constructor; assumption.
Qed.

Lemma ForallOrdPairs_nth (l : list A) (i j : nat) (a b : A) :
  ForallOrdPairs R l -> (i < j)%nat ->
  nth_error l i = Some a -> nth_error l j = Some b -> R a b.
Proof.
  intros Hp. revert i j. induction Hp as [|x t Hx Ht IH]; intros i j Hij Hi Hj.
  - destruct i; discriminate.
  - destruct j as [|j]; [lia |]. simpl in Hj.
    destruct i as [|i].
    + simpl in Hi. injection Hi as <-.
      rewrite Forall_forall in Hx. apply Hx. eapply nth_error_In. exact Hj.
    + simpl in Hi. apply (IH i j); [lia | exact Hi | exact Hj].
Qed.
End OrdPairs.

Lemma span_before_false (x y : AnalyzerResult) :
  span_before x y = false -> end_desc y x.
Proof.
  unfold span_before, end_desc. intros H.
  apply Bool.orb_false_iff in H as [H1 _]. apply Z.ltb_ge in H1. lia.
Qed.

Lemma span_before_true (x y : AnalyzerResult) :
  span_before x y = true -> end_desc x y.
Proof.
  unfold span_before, end_desc. intros H.
  apply Bool.orb_true_iff in H as [H | H].
  - apply Z.ltb_lt in H. lia.
  - apply Bool.andb_true_iff in H as [H _]. apply Z.eqb_eq in H. lia.
Qed.

Lemma insert_span_head (x y : AnalyzerResult) (t : list AnalyzerResult) :
  end_desc y x -> HdRel end_desc y t -> HdRel end_desc y (insert_span x t).
Proof.
  intros Hyx Ht. destruct t as [|z t]; simpl.
  - constructor. exact Hyx.
  - destruct (span_before x z); constructor; [exact Hyx |].
    inversion Ht; assumption.
Qed.

Lemma insert_span_sorted (x : AnalyzerResult) (l : list AnalyzerResult) :
  Sorted end_desc l -> Sorted end_desc (insert_span x l).
Proof.
  induction l as [|y t IH]; intros Hs; simpl.
  - constructor; constructor.
  - destruct (span_before x y) eqn:E.
    + constructor; [exact Hs | constructor; apply span_before_true; exact E].
    + inversion Hs as [|y' t' Ht Hhd]; subst.
      constructor; [apply IH; exact Ht |].
      apply insert_span_head; [apply span_before_false; exact E | exact Hhd].
Qed.

Lemma sort_spans_sorted (l : list AnalyzerResult) : Sorted end_desc (sort_spans l).
Proof.
  induction l as [|x t IH]; simpl; [constructor | apply insert_span_sorted; exact IH].
Qed.

Lemma end_desc_trans : Relations_1.Transitive end_desc.
Proof. intros a b c H1 H2. unfold end_desc in *. lia. Qed.

Lemma no_conflict_disjoint (x a : AnalyzerResult) :
  conflicts x a = false -> disjoint a x.
Proof.
  unfold conflicts, intersects. intros H p [Ha Hx]. unfold covers in *.
  apply Bool.orb_false_iff in H as [H _].
  apply Bool.andb_false_iff in H as [H | H]; apply Z.ltb_ge in H; lia.
Qed.

Lemma accept_spans_ok (acc l : list AnalyzerResult) :
  ForallOrdPairs end_desc l -> ForallOrdPairs end_desc acc ->
  ForallOrdPairs disjoint acc ->
  (forall a b, In a acc -> In b l -> end_desc a b) ->
  ForallOrdPairs end_desc (accept_spans acc l) /\ ForallOrdPairs disjoint (accept_spans acc l).
Proof.
  revert acc. induction l as [|x t IH]; intros acc Hl Hs Hd Hx; simpl.
  - split; assumption.
  - inversion Hl as [|x' t' Hxt Ht]; subst.
    destruct (existsb (conflicts x) acc) eqn:E.
    + apply IH; try assumption.
      intros a b Ha Hb. apply Hx; [exact Ha | apply in_cons; exact Hb].
    + apply IH; try assumption.
      * apply ForallOrdPairs_snoc; [exact Hs |].
        apply Forall_forall. intros a Ha. apply Hx; [exact Ha | apply in_eq].
      * apply ForallOrdPairs_snoc; [exact Hd |].
        apply Forall_forall. intros a Ha. apply no_conflict_disjoint.
        apply Bool.not_true_is_false. intros Hc.
        assert (Hex : existsb (conflicts x) acc = true)
          by (apply existsb_exists; exists a; split; assumption).
        congruence.
      * intros a b Ha Hb. apply in_app_or in Ha as [Ha | Ha].
        -- apply Hx; [exact Ha | apply in_cons; exact Hb].
        -- simpl in Ha. destruct Ha as [<- | []].
           rewrite Forall_forall in Hxt. apply Hxt. exact Hb.
Qed.

Lemma disjoint_sym (a b : AnalyzerResult) : disjoint a b -> disjoint b a.
Proof. intros H x [Hb Ha]. apply (H x). split; assumption. Qed.

(** C8. The spans kept by the conflict resolver pairwise cover disjoint
    ranges [[start, end)], and they come in order of descending [end]. *)
Theorem resolved_spans_disjoint_desc (l : list AnalyzerResult) :
  (forall i j a b, i <> j ->
     nth_error (to_sorted_unique_results l) i = Some a ->
     nth_error (to_sorted_unique_results l) j = Some b ->
     forall x, ~ (start a <= x < end_ a /\ start b <= x < end_ b))
  /\ (forall i j a b, (i < j)%nat ->
        nth_error (to_sorted_unique_results l) i = Some a ->
        nth_error (to_sorted_unique_results l) j = Some b ->
        end_ b <= end_ a).
Proof.
  assert (Hsort : ForallOrdPairs end_desc (sort_spans l)).
  { apply StronglySorted_ForallOrdPairs, Sorted_StronglySorted;
      [exact end_desc_trans | apply sort_spans_sorted]. }
  destruct (accept_spans_ok [] (sort_spans l) Hsort (FOP_nil _) (FOP_nil _))
    as [Hs Hd]; [intros a b [] |].
  fold (to_sorted_unique_results l) in Hs, Hd. split.
  - intros i j a b Hij Hi Hj.
    destruct (Nat.lt_gt_cases i j) as [[Hlt | Hgt] _]; [exact Hij | |].
    + apply (ForallOrdPairs_nth _ _ _ i j a b Hd Hlt Hi Hj).
    + apply disjoint_sym. apply (ForallOrdPairs_nth _ _ _ j i b a Hd Hgt Hj Hi).
  - intros i j a b Hij Hi Hj. apply (ForallOrdPairs_nth _ _ _ i j a b Hs Hij Hi Hj).
Qed.

(** * Concrete requests *)

Definition example_registry : dict :=
  [("replace", VClass "Replace"); ("mask", VClass "Mask"); ("hash", VClass "Hash")].

Definition example_span (s e : Z) (label : string) : value :=
  VDict [("start", VInt s); ("end", VInt e); ("entity_type", VStr label)].

(** The request of [get_content] in the tests. *)
Definition example_data : dict :=
  [("text", VStr "hello world, my name is Jane Doe. My number is: 034453334");
   ("anonymizers",
     VDict [("DEFAULT", VDict [("type", VStr "replace"); ("new_value", VStr "ANONYMIZED")]);
            ("PHONE_NUMBER", VDict [("type", VStr "mask"); ("masking_char", VStr "*");
                                    ("chars_to_mask", VInt 4); ("from_end", VBool true)])]);
   ("analyzer_results",
     VList [example_span 24 32 "NAME"; example_span 24 28 "FIRST_NAME";
            example_span 29 32 "LAST_NAME"; example_span 48 57 "PHONE_NUMBER"])].

Definition example_self : request :=
  match AnonymizerRequest example_data example_registry with
  | inr self => self
  | inl _ => new_request []
  end.

(** Scenario 1 of the spec. *)
Definition scenario1_data : dict :=
  [("text", VStr "hello world"); ("analyzer_results", VList [example_span 5 12 "NAME"])].

(** The second invalid request of the tests: an unknown kind ["none"]. *)
Definition unknown_kind_data : dict :=
  [("text", VStr "hello world, my name is Jane Doe. My number is: 034453334");
   ("analyzer_results", VList [example_span 28 32 "NUMBER"]);
   ("anonymizers", VDict [("default", VDict [("type", VStr "none")])])].

Definition missing_type_data : dict :=
  [("text", VStr "hello world"); ("analyzer_results", VList [example_span 0 5 "NAME"]);
   ("anonymizers", VDict [("NAME", VDict [("new_value", VStr "x")])])].

Definition mask_only_data : dict :=
  [("text", VStr "hello world"); ("analyzer_results", VList [example_span 0 5 "NAME"]);
   ("anonymizers", VDict [("NAME", VDict [("type", VStr "MASK"); ("masking_char", VStr "*")])])].

Definition mask_only_registry : dict := [("mask", VClass "Mask")].

(** The policies of [example_data]. *)
Definition example_policies : dict :=
  [("DEFAULT", VDict [("type", VStr "replace"); ("new_value", VStr "ANONYMIZED")]);
   ("PHONE_NUMBER", VDict [("type", VStr "mask"); ("masking_char", VStr "*");
                           ("chars_to_mask", VInt 4); ("from_end", VBool true)])].

Definition list_policies_data : dict :=
  [("text", VStr "hello world"); ("analyzer_results", VList [example_span 0 5 "NAME"]);
   ("anonymizers", VList [])].

Definition string_policy_data : dict :=
  [("text", VStr "hello world"); ("analyzer_results", VList [example_span 0 5 "NAME"]);
   ("anonymizers", VDict [("NAME", VStr "replace")])].

Definition int_text_data : dict :=
  [("text", VInt 5); ("analyzer_results", VList [example_span 0 1 "NAME"])].

Definition int_results_data : dict :=
  [("text", VStr "hello world"); ("analyzer_results", VInt 3)].

Example str_of_Z_examples :
  (str_of_Z 0, str_of_Z 11, str_of_Z 1024, str_of_Z (-5)) = ("0", "11", "1024", "-5").
Proof. reflexivity. Qed.

Example kind_is_lowercased :
  match AnonymizerRequest mask_only_data (("replace", VClass "Replace") :: mask_only_registry) with
  | inr self => assoc_get "NAME" (_anonymizers self)
  | inl _ => None
  end = Some [("type", VStr "MASK"); ("masking_char", VStr "*"); ("anonymizer", VClass "Mask")].
Proof. vm_compute. reflexivity. Qed.

(** Scenario 3 of the spec: of two nested spans only the one with the
    higher [end] is kept; an exact duplicate collapses. *)
Example nested_spans_pruned :
  to_sorted_unique_results
    [mkAnalyzerResult 24 28 "FIRST_NAME" VNone; mkAnalyzerResult 24 32 "NAME" VNone;
     mkAnalyzerResult 48 57 "PHONE_NUMBER" VNone; mkAnalyzerResult 48 57 "PHONE_NUMBER" VNone]
  = [mkAnalyzerResult 48 57 "PHONE_NUMBER" VNone; mkAnalyzerResult 24 32 "NAME" VNone].
Proof. reflexivity. Qed.

(** * Witnesses and counterexamples *)

Lemma get_anonymizer_dto_fallback_witness :
  AnonymizerRequest example_data example_registry = inr example_self
  /\ fst (get_anonymizer_dto "NAME" example_self) =
       inr [("type", VStr "replace"); ("new_value", VStr "ANONYMIZED");
            ("anonymizer", VClass "Replace"); ("entity_type", VStr "NAME")].
Proof.
  assert (H : AnonymizerRequest example_data example_registry = inr example_self)
    by (vm_compute; reflexivity).
  split; [exact H |].
  destruct (get_anonymizer_dto_fallback _ _ _ "NAME" H) as (a & Ha & Hr & _).
  rewrite Hr. vm_compute. reflexivity.
Defined.

Lemma empty_results_rejected_witness :
  AnonymizerRequest [("text", VStr "hello world")] example_registry =
    inl (InvalidParamException "Invalid input, analyzer results can not be empty").
Proof.
  apply (proj1 (empty_results_rejected [("text", VStr "hello world")] example_registry
                  "hello world" (or_introl eq_refl))); [reflexivity | discriminate].
Defined.

Lemma empty_results_counterexample :
  AnonymizerRequest [("analyzer_results", VList [])] example_registry =
    inl (InvalidParamException "Invalid input, text can not be empty")
  /\ AnonymizerRequest [("analyzer_results", VList [])] example_registry <>
       inl (InvalidParamException "Invalid input, analyzer results can not be empty").
Proof. split; vm_compute; [reflexivity | discriminate]. Qed.

Lemma out_of_bounds_rejected_witness :
  AnonymizerRequest scenario1_data example_registry =
    inl (InvalidParamException
           "Invalid analyzer result, start: 5 and end: 12, while text length is only 11.").
Proof.
  destruct (out_of_bounds_rejected scenario1_data example_registry "hello world"
              [example_span 5 12 "NAME"] [mkAnalyzerResult 5 12 "NAME" VNone]
              eq_refl ltac:(discriminate) eq_refl ltac:(discriminate)
              (Forall2_cons (example_span 5 12 "NAME") (mkAnalyzerResult 5 12 "NAME" VNone)
                 (eq_refl : analyzer_result_of (example_span 5 12 "NAME") =
                              inr (mkAnalyzerResult 5 12 "NAME" VNone))
                 (Forall2_nil _))) as [_ H].
  exact H.
Defined.

Lemma unknown_kind_rejected_witness :
  exists k, AnonymizerRequest unknown_kind_data example_registry =
              inl (InvalidParamException ("Invalid anonymizer class '" ++ k ++ "'.")).
Proof.
  apply (proj2 (unknown_kind_rejected unknown_kind_data example_registry
                  (snd ((handle_text unknown_kind_data ;;;
                         handle_analyzer_results unknown_kind_data)
                          (new_request example_registry)))
                  [("default", VDict [("type", VStr "none")])]
                  ltac:(vm_compute; reflexivity) eq_refl
                  ltac:(constructor; [exists [("type", VStr "none")], "none";
                                      split; reflexivity | constructor]))).
  exists "default", [("type", VStr "none")], "none".
  split; [apply in_eq | split; reflexivity].
Defined.

Lemma get_anonymizer_dto_mutation_counterexample :
  AnonymizerRequest example_data example_registry = inr example_self
  /\ _anonymizers (snd (get_anonymizer_dto "NAME" example_self)) <> _anonymizers example_self.
Proof. split; vm_compute; [reflexivity | discriminate]. Qed.

Lemma empty_text_rejected_witness :
  AnonymizerRequest [] example_registry =
    inl (InvalidParamException "Invalid input, text can not be empty").
Proof. exact (proj2 (empty_text_rejected [] example_registry (or_introl eq_refl))). Defined.

Lemma missing_type_attribute_error_witness :
  AnonymizerRequest missing_type_data example_registry =
    inl (AttributeError "'NoneType' object has no attribute 'lower'").
Proof.
  exact (proj1 (missing_type_attribute_error missing_type_data example_registry
                  (snd ((handle_text missing_type_data ;;;
                         handle_analyzer_results missing_type_data)
                          (new_request example_registry)))
                  [] [] "NAME" [("new_value", VStr "x")]
                  ltac:(vm_compute; reflexivity) eq_refl (Forall_nil _) eq_refl)).
Defined.

Lemma missing_replace_key_error_witness :
  AnonymizerRequest mask_only_data mask_only_registry = inl (KeyError "replace").
Proof.
  apply (missing_replace_key_error mask_only_data mask_only_registry
           (snd (validate_and_insert_input mask_only_data (new_request mask_only_registry)))).
  - vm_compute. reflexivity.
  - reflexivity.
Defined.

(** * Further properties of [AnonymizerRequest] *)

(** ** What a successful validation went through *)

Lemma handle_text_success (data : dict) (s s' : request) :
  handle_text data s = (inr tt, s') ->
  truthy (dict_get "text" data) = true /\ s' = with_text (dict_get "text" data) s.
Proof.
  unfold handle_text, bind, modify. destruct (truthy (dict_get "text" data)); simpl;
    intros H; inversion H; auto.
Qed.

Lemma handle_analyzer_results_success (data : dict) (s s' : request) :
  handle_analyzer_results data s = (inr tt, s') ->
  truthy (dict_get "analyzer_results" data) = true
  /\ exists n items, py_len (dict_get "text" data) = Some n
       /\ py_iter (dict_get "analyzer_results" data) = Some items
       /\ for_each (handle_analyzer_result n) items s = (inr tt, s').
Proof.
  unfold handle_analyzer_results.
  destruct (truthy (dict_get "analyzer_results" data)); simpl; [| discriminate].
  unfold bind, lift.
  destruct (py_len (dict_get "text" data)) as [n|]; simpl; [| discriminate].
  destruct (py_iter (dict_get "analyzer_results" data)) as [items|]; simpl; [| discriminate].
  intros H. split; [reflexivity |]. exists n, items. auto.
Qed.

Lemma span_loop_success (text_len : Z) (raws : list value) (s s' : request) :
  for_each (handle_analyzer_result text_len) raws s = (inr tt, s') ->
  exists rs, Forall2 (fun v r => analyzer_result_of v = inr r) raws rs
    /\ Forall (fun r => out_of_bounds r text_len = false) rs
    /\ s' = with_analysis_results (_analysis_results s ++ rs)%list s.
Proof.
  revert s. induction raws as [|v t IH]; intros s H.
  - simpl in H. injection H as <-. exists []. split; [constructor | split; [constructor |]].
    rewrite List.app_nil_r, with_analysis_results_same. reflexivity.
  - change (bind (handle_analyzer_result text_len v)
              (fun _ => for_each (handle_analyzer_result text_len) t) s = (inr tt, s')) in H.
    destruct (analyzer_result_of v) as [e | r] eqn:Ev.
    + unfold bind, handle_analyzer_result at 1, bind, lift in H. rewrite Ev in H.
      discriminate.
    + pose proof (handle_analyzer_result_eq text_len v r s Ev) as Hb.
      destruct (out_of_bounds r text_len) eqn:Eo.
      * rewrite (bind_err _ _ _ _ _ Hb) in H. discriminate.
      * rewrite (bind_ok _ _ _ _ _ Hb) in H.
        destruct (IH _ H) as (rs & Hp & Hb' & ->).
        exists (r :: rs). split; [constructor; assumption | split; [constructor; assumption |]].
        rewrite with_analysis_results_twice. destruct s. simpl.
        rewrite <- List.app_assoc. reflexivity.
Qed.

Lemma validate_success (data : dict) (s0 s1 : request) :
  validate_and_insert_input data s0 = (inr tt, s1) ->
  truthy (dict_get "text" data) = true
  /\ truthy (dict_get "analyzer_results" data) = true
  /\ exists n items s2,
       py_len (dict_get "text" data) = Some n
       /\ py_iter (dict_get "analyzer_results" data) = Some items
       /\ for_each (handle_analyzer_result n) items (with_text (dict_get "text" data) s0)
            = (inr tt, s2)
       /\ handle_anonymizers data s2 = (inr tt, s1).
Proof.
  unfold validate_and_insert_input, bind at 1.
  destruct (handle_text data s0) as [[e | []] sa] eqn:E1; [discriminate |].
  destruct (handle_text_success _ _ _ E1) as [Ht ->].
  unfold bind at 1.
  destruct (handle_analyzer_results data (with_text (dict_get "text" data) s0))
    as [[e | []] sb] eqn:E2; [discriminate |].
  destruct (handle_analyzer_results_success _ _ _ E2) as (Hr & n & items & Hn & Hi & Hl).
  intros H. split; [exact Ht | split; [exact Hr |]].
  exists n, items, sb. auto.
Qed.

Lemma handle_anonymizers_frame (data : dict) (s s' : request) (res : error + unit) :
  handle_anonymizers data s = (res, s') ->
  _text s' = _text s /\ _analysis_results s' = _analysis_results s.
Proof.
  intros H.
  pose proof (handle_anonymizers_preserves
                (fun x => _text x = _text s /\ _analysis_results x = _analysis_results s)
                data ltac:(intros; exact H0) s (conj eq_refl eq_refl)) as Hp.
  rewrite H in Hp. exact Hp.
Qed.

Lemma in_bounds_of_not_out_of_bounds (r : AnalyzerResult) (text_len : Z) :
  out_of_bounds r text_len = false -> 0 <= start r /\ start r < end_ r /\ end_ r <= text_len.
Proof.
  unfold out_of_bounds. intros H.
  apply Bool.orb_false_iff in H as [H H3]. apply Bool.orb_false_iff in H as [H1 H2].
  apply Z.ltb_ge in H1. apply Z.ltb_ge in H2. apply Z.leb_gt in H3. lia.
Qed.

(** A constructed request, with the state its validation went through. *)
Lemma constructed_request_state (data reg : dict) (self : request) :
  AnonymizerRequest data reg = inr self ->
  exists n items rs s2,
    py_len (dict_get "text" data) = Some n
    /\ py_iter (dict_get "analyzer_results" data) = Some items
    /\ Forall2 (fun v r => analyzer_result_of v = inr r) items rs
    /\ Forall (fun r => out_of_bounds r n = false) rs
    /\ s2 = with_analysis_results rs (with_text (dict_get "text" data) (new_request reg))
    /\ truthy (dict_get "text" data) = true
    /\ truthy (dict_get "analyzer_results" data) = true
    /\ exists s1, handle_anonymizers data s2 = (inr tt, s1)
                  /\ (exists a, self = with_default [("type", VStr "replace"); ("anonymizer", a)] s1).
Proof.
  intros H. destruct (constructed_request _ _ _ H) as (a & s1 & Ha & Hv & Hself & _ & _).
  destruct (validate_success _ _ _ Hv) as (Ht & Hr & n & items & s2 & Hn & Hi & Hl & Hha).
  destruct (span_loop_success _ _ _ _ Hl) as (rs & Hp & Hb & Hs2).
  exists n, items, rs, s2. repeat split; try assumption.
  exists s1. split; [exact Hha | exists a; exact Hself].
Qed.

(** The text of a constructed request: [get_text] returns the request's
    ["text"] value unchanged, and that value is truthy and has a [len()]. *)
Theorem constructed_text (data reg : dict) (self : request) :
  AnonymizerRequest data reg = inr self ->
  get_text self = (inr (dict_get "text" data), self)
  /\ truthy (dict_get "text" data) = true
  /\ py_len (dict_get "text" data) <> None.
Proof.
  intros H.
  destruct (constructed_request_state _ _ _ H)
    as (n & items & rs & s2 & Hn & _ & _ & _ & Hs2 & Ht & _ & s1 & Hha & a & Hself).
  destruct (handle_anonymizers_frame _ _ _ _ Hha) as [Htext _].
  split; [| split; [exact Ht | rewrite Hn; discriminate]].
  unfold get_text. rewrite Hself. simpl. rewrite Htext, Hs2. reflexivity.
Qed.

(** The spans of a constructed request: [get_analysis_results] returns one
    result per entry of the ["analyzer_results"] list, in the same order,
    each with [0 <= start < end <= len(text)]; the list is not empty. *)
Theorem constructed_results (data reg : dict) (self : request) (raws : list value) :
  AnonymizerRequest data reg = inr self ->
  dict_get "analyzer_results" data = VList raws ->
  raws <> []
  /\ exists rs n,
       get_analysis_results self = (inr rs, self)
       /\ py_len (dict_get "text" data) = Some n
       /\ Forall2 (fun v r => analyzer_result_of v = inr r) raws rs
       /\ Forall (fun r => 0 <= start r /\ start r < end_ r /\ end_ r <= n) rs.
Proof.
  intros H Hraws.
  destruct (constructed_request_state _ _ _ H)
    as (n & items & rs & s2 & Hn & Hi & Hp & Hb & Hs2 & _ & Hr & s1 & Hha & a & Hself).
  rewrite Hraws in Hi, Hr. simpl in Hi. injection Hi as <-.
  split; [destruct raws; [discriminate | intros Hc; discriminate Hc] |].
  destruct (handle_anonymizers_frame _ _ _ _ Hha) as [_ Hres].
  exists rs, n. split; [| split; [exact Hn | split; [exact Hp |]]].
  - unfold get_analysis_results, gets. f_equal. f_equal.
    rewrite Hself. simpl. rewrite Hres, Hs2. reflexivity.
  - eapply Forall_impl; [| exact Hb]. intros r. apply in_bounds_of_not_out_of_bounds.
Qed.

(** ** The stored policy map *)

Lemma assoc_get_not_in {A : Type} (k : string) (d : list (string * A)) :
  ~ In k (map fst d) -> assoc_get k d = None.
Proof.
  induction d as [|[k' v] t IH]; simpl; intros Hn; [reflexivity |].
  destruct (String.eqb k k') eqn:E.
  - apply String.eqb_eq in E. subst. exfalso. apply Hn. left. reflexivity.
  - apply IH. intros Hin. apply Hn. right. exact Hin.
Qed.

Lemma handle_anonymizer_item_success (key : string) (v : value) (s s' : request) :
  handle_anonymizer_item (key, v) s = (inr tt, s') ->
  exists d t, v = VDict d /\ dict_get "type" d = VStr t
    /\ truthy (dict_get (lower t) (anonymizers s)) = true
    /\ s' = with_anonymizers_
              (assoc_set key (assoc_set "anonymizer" (dict_get (lower t) (anonymizers s)) d)
                 (_anonymizers s)) s.
Proof.
  destruct v as [| | | | | d |]; try (simpl; discriminate).
  destruct (dict_get "type" d) eqn:Et;
    try (unfold handle_anonymizer_item, get_anonymizer, bind; rewrite Et; discriminate).
  rewrite (handle_anonymizer_item_eq key s0 d s Et).
  destruct (truthy (dict_get (lower s0) (anonymizers s))) eqn:Eb; [| discriminate].
  intros H. injection H as <-. exists d, s0. auto.
Qed.

Lemma policy_loop_store (items : dict) (s s' : request) :
  NoDup (map fst items) ->
  for_each handle_anonymizer_item items s = (inr tt, s') ->
  anonymizers s' = anonymizers s
  /\ forall key,
       match assoc_get key items with
       | Some v => exists d t, v = VDict d /\ dict_get "type" d = VStr t
                     /\ truthy (dict_get (lower t) (anonymizers s)) = true
                     /\ assoc_get key (_anonymizers s') =
                          Some (assoc_set "anonymizer" (dict_get (lower t) (anonymizers s)) d)
       | None => assoc_get key (_anonymizers s') = assoc_get key (_anonymizers s)
       end.
Proof.
  revert s. induction items as [|[k0 v0] t IH]; intros s Hnd H.
  - simpl in H. injection H as <-. split; [reflexivity | intros key; reflexivity].
  - simpl in Hnd. apply NoDup_cons_iff in Hnd as [Hk0 Hnd].
    change (bind (handle_anonymizer_item (k0, v0))
              (fun _ => for_each handle_anonymizer_item t) s = (inr tt, s')) in H.
    destruct (handle_anonymizer_item (k0, v0) s) as [[e | []] sm] eqn:E1;
      [unfold bind in H; rewrite E1 in H; discriminate |].
    rewrite (bind_ok _ _ _ _ _ E1) in H.
    destruct (handle_anonymizer_item_success _ _ _ _ E1) as (d & ty & -> & Hty & Htr & Hsm).
    destruct (IH sm Hnd H) as [Hreg IH'].
    assert (Hregm : anonymizers sm = anonymizers s) by (rewrite Hsm; reflexivity).
    split; [rewrite Hreg; exact Hregm |].
    intros key. simpl. destruct (String.eqb key k0) eqn:Ek.
    + apply String.eqb_eq in Ek. subst key. exists d, ty.
      split; [reflexivity | split; [exact Hty | split; [exact Htr |]]].
      specialize (IH' k0). rewrite (assoc_get_not_in _ _ Hk0) in IH'. rewrite IH', Hsm.
      simpl. apply assoc_get_set_eq.
    + apply String.eqb_neq in Ek. specialize (IH' key). rewrite Hregm in IH'.
      destruct (assoc_get key t); [exact IH' |].
      rewrite IH', Hsm. simpl. apply assoc_get_set_neq. exact Ek.
Qed.

(** The policies of a constructed request: when the ["anonymizers"] map has
    distinct keys, every policy is stored under its own key, as the given
    dict with ["anonymizer"] set to the registry's class for its lower-cased
    ["type"]; no other key is stored. *)
Theorem constructed_policies (data reg : dict) (self : request) (items : dict) :
  AnonymizerRequest data reg = inr self ->
  dict_get "anonymizers" data = VDict items ->
  NoDup (map fst items) ->
  forall key,
    match assoc_get key items with
    | Some v => exists d t, v = VDict d /\ dict_get "type" d = VStr t
                  /\ truthy (dict_get (lower t) reg) = true
                  /\ assoc_get key (_anonymizers self) =
                       Some (assoc_set "anonymizer" (dict_get (lower t) reg) d)
    | None => assoc_get key (_anonymizers self) = None
    end.
Proof.
  intros H Hitems Hnd key.
  destruct (constructed_request_state _ _ _ H)
    as (n & its & rs & s2 & _ & _ & _ & _ & Hs2 & _ & _ & s1 & Hha & a & Hself).
  unfold handle_anonymizers in Hha. rewrite Hitems in Hha.
  destruct (policy_loop_store _ _ _ Hnd Hha) as [_ Hst].
  specialize (Hst key).
  assert (Hreg2 : anonymizers s2 = reg) by (rewrite Hs2; reflexivity).
  assert (Hst2 : _anonymizers s2 = []) by (rewrite Hs2; reflexivity).
  rewrite Hreg2, Hst2 in Hst.
  assert (Hsame : _anonymizers self = _anonymizers s1) by (rewrite Hself; reflexivity).
  rewrite Hsame. exact Hst.
Qed.

(** ** Registry lookups *)

Lemma lower_ascii_idem (c : ascii) : lower_ascii (lower_ascii c) = lower_ascii c.
Proof. destruct c as [[] [] [] [] [] [] [] []]; reflexivity. Qed.

Lemma lower_idem (s : string) : lower (lower s) = lower s.
Proof.
  induction s as [|c s IH]; simpl; [reflexivity |]. rewrite lower_ascii_idem, IH. reflexivity.
Qed.

(** [__get_anonymizer] only ever consults the registry under a lower-case
    key: a class it returns is the truthy registry entry of a key [k] with
    [lower k = k], so an entry registered under a key containing an
    upper-case letter is never selected. *)
Theorem get_anonymizer_lowercase_key (anonymizer : dict) (self : request) (a : value) :
  fst (get_anonymizer anonymizer self) = inr a ->
  exists k, lower k = k /\ dict_get k (anonymizers self) = a /\ truthy a = true.
Proof.
  unfold get_anonymizer, bind, gets.
  destruct (dict_get "type" anonymizer) as [| | | t | | |]; try (simpl; discriminate).
  destruct (truthy (dict_get (lower t) (anonymizers self))) eqn:E; simpl; [| discriminate].
  intros H. injection H as <-. exists (lower t).
  split; [apply lower_idem | split; [reflexivity | exact E]].
Qed.

(** ** Errors raised by Python itself *)

(** [__handle_anonymizers] tests ["anonymizers"] with [is not None], not
    for truthiness: any other non-dict value, an empty list included,
    reaches [.items()] and raises [AttributeError]. *)
Theorem anonymizers_without_items (data reg : dict) (s1 : request) (v : value) :
  (handle_text data ;;; handle_analyzer_results data) (new_request reg) = (inr tt, s1) ->
  dict_get "anonymizers" data = v -> v <> VNone -> (forall items, v <> VDict items) ->
  AnonymizerRequest data reg =
    inl (AttributeError ("'" ++ type_name v ++ "' object has no attribute 'items'")).
Proof.
  intros H Hv Hn Hd. destruct (after_span_checks _ _ _ H) as [_ Hval].
  unfold AnonymizerRequest, init. unfold bind at 1. rewrite Hval.
  unfold handle_anonymizers. rewrite Hv.
  destruct v; try congruence; try reflexivity.
Qed.

(** A policy that is not a dict makes [anonymizer.get("type")] raise
    [AttributeError], once the policies before it have been accepted. *)
Theorem policy_without_get (data reg : dict) (s1 : request)
  (pre post : dict) (key : string) (v : value) :
  (handle_text data ;;; handle_analyzer_results data) (new_request reg) = (inr tt, s1) ->
  dict_get "anonymizers" data = VDict (pre ++ (key, v) :: post)%list ->
  Forall (registered_kind reg) pre ->
  (forall d, v <> VDict d) ->
  AnonymizerRequest data reg =
    inl (AttributeError ("'" ++ type_name v ++ "' object has no attribute 'get'")).
Proof.
  intros H Hitems Hpre Hd.
  destruct (after_span_checks _ _ _ H) as [Hreg Hv].
  destruct (policy_loop_ok reg pre s1 Hreg Hpre) as (s2 & Hs2 & _).
  unfold AnonymizerRequest, init. unfold bind at 1. rewrite Hv.
  unfold handle_anonymizers. rewrite Hitems, for_each_app.
  rewrite (bind_ok _ _ _ _ _ Hs2). simpl.
  destruct v; try reflexivity. exfalso. eapply Hd. reflexivity.
Qed.

(** A truthy text without a length (a number, say) passes the text check,
    and [len(data.get("text"))] then raises [TypeError] once the spans are
    non-empty. *)
Theorem text_without_len (data reg : dict) :
  truthy (dict_get "text" data) = true ->
  py_len (dict_get "text" data) = None ->
  truthy (dict_get "analyzer_results" data) = true ->
  AnonymizerRequest data reg =
    inl (TypeError ("object of type '" ++ type_name (dict_get "text" data) ++ "' has no len()")).
Proof.
  intros Ht Hl Hr.
  unfold AnonymizerRequest, init, validate_and_insert_input, bind, handle_text, modify.
  rewrite Ht. simpl.
  unfold handle_analyzer_results, bind, lift. rewrite Hr, Hl. reflexivity.
Qed.

(** Truthy spans that are not iterable (a number, say) make the loop of
    [__handle_analyzer_results] raise [TypeError], after the text length
    has been taken. *)
Theorem results_not_iterable (data reg : dict) (n : Z) :
  truthy (dict_get "text" data) = true ->
  py_len (dict_get "text" data) = Some n ->
  truthy (dict_get "analyzer_results" data) = true ->
  py_iter (dict_get "analyzer_results" data) = None ->
  AnonymizerRequest data reg =
    inl (TypeError ("'" ++ type_name (dict_get "analyzer_results" data)
                     ++ "' object is not iterable")).
Proof.
  intros Ht Hl Hr Hi.
  unfold AnonymizerRequest, init, validate_and_insert_input, bind, handle_text, modify.
  rewrite Ht. simpl.
  unfold handle_analyzer_results, bind, lift. rewrite Hr, Hl, Hi. reflexivity.
Qed.

(** ** The built-in default *)


(** ** Two labels resolving to one policy object *)

Definition is_nonempty (o : option dict) : bool :=
  match o with Some (_ :: _) => true | _ => false end.

(** The policy object [get_anonymizer_dto] resolves a label to. *)
Definition resolved_slot (self : request) (l : string) : option dict :=
  match resolved_key self l with
  | Some k => assoc_get k (_anonymizers self)
  | None => default_anonymizer self
  end.

Lemma resolved_key_eq (self : request) (l : string) :
  resolved_key self l =
    if is_nonempty (assoc_get l (_anonymizers self)) then Some l
    else if is_nonempty (assoc_get "DEFAULT" (_anonymizers self)) then Some "DEFAULT"
    else None.
Proof.
  unfold resolved_key.
  destruct (assoc_get l (_anonymizers self)) as [[|]|];
    destruct (assoc_get "DEFAULT" (_anonymizers self)) as [[|]|]; reflexivity.
Qed.

Lemma resolved_key_some (self : request) (l k : string) :
  resolved_key self l = Some k ->
  exists d, assoc_get k (_anonymizers self) = Some d /\ d <> []
    /\ get_anonymizer_dto l self =
         (inr (tag_entity_type l d),
          with_anonymizers_ (assoc_set k (tag_entity_type l d) (_anonymizers self)) self).
Proof.
  unfold resolved_key, get_anonymizer_dto.
  destruct (assoc_get l (_anonymizers self)) as [[|p d]|] eqn:E1;
    [destruct (assoc_get "DEFAULT" (_anonymizers self)) as [[|q e]|] eqn:E2
    | | destruct (assoc_get "DEFAULT" (_anonymizers self)) as [[|q e]|] eqn:E2];
    intros H; try discriminate; injection H as <-;
    eexists; (split; [eassumption | split; [discriminate | reflexivity]]).
Qed.

Lemma resolved_key_none (self : request) (l : string) :
  resolved_key self l = None ->
  get_anonymizer_dto l self =
    match default_anonymizer self with
    | Some d => (inr (tag_entity_type l d), with_default (tag_entity_type l d) self)
    | None =>
        (inl (AttributeError
                "'AnonymizerRequest' object has no attribute 'default_anonymizer'"), self)
    end.
Proof.
  unfold resolved_key, get_anonymizer_dto.
  destruct (assoc_get l (_anonymizers self)) as [[|p d]|];
    destruct (assoc_get "DEFAULT" (_anonymizers self)) as [[|q e]|];
    intros H; try discriminate; reflexivity.
Qed.

(** Resolving a label never changes which object any label resolves to. *)
Lemma resolved_key_stable (self : request) (l l' : string) :
  resolved_key (snd (get_anonymizer_dto l self)) l' = resolved_key self l'.
Proof.
  destruct (resolved_key self l) as [k|] eqn:Ek.
  - destruct (resolved_key_some _ _ _ Ek) as (d & Hd & Hne & ->). simpl.
    assert (Hx : forall x, is_nonempty (assoc_get x (assoc_set k (tag_entity_type l d)
                                                       (_anonymizers self)))
                           = is_nonempty (assoc_get x (_anonymizers self))).
    { intros x. rewrite assoc_get_set_if. destruct (String.eqb x k) eqn:Ex; [| reflexivity].
      apply String.eqb_eq in Ex. subst x. rewrite Hd.
      destruct d as [|p d]; [congruence |].
      destruct (tag_entity_type l (p :: d)) eqn:Et;
        [exfalso; exact (tag_entity_type_nonempty _ _ Et) | reflexivity]. }
    rewrite !resolved_key_eq. simpl. rewrite !Hx. reflexivity.
  - rewrite (resolved_key_none _ _ Ek).
    destruct (default_anonymizer self); reflexivity.
Qed.

(** When two labels resolve to the same policy object, resolving the second
    returns that object re-tagged with the second label: the dict handed out
    for the first label is the one that now says ["entity_type": l2]. *)
Theorem get_anonymizer_dto_shared_slot (self : request) (l1 l2 : string) (d1 : dict) :
  resolved_key self l1 = resolved_key self l2 ->
  fst (get_anonymizer_dto l1 self) = inr d1 ->
  fst (get_anonymizer_dto l2 (snd (get_anonymizer_dto l1 self))) = inr (tag_entity_type l2 d1)
  /\ resolved_slot (snd (get_anonymizer_dto l2 (snd (get_anonymizer_dto l1 self)))) l1
       = Some (tag_entity_type l2 d1)
  /\ dict_get "entity_type" (tag_entity_type l2 d1) = VStr l2.
Proof.
  intros Hsame Hr1.
  pose proof (resolved_key_stable self l1 l2) as S2.
  pose proof (resolved_key_stable self l1 l1) as S1.
  remember (snd (get_anonymizer_dto l1 self)) as s1 eqn:Hs1.
  pose proof (resolved_key_stable s1 l2 l1) as S3.
  unfold resolved_slot. rewrite S3, S1.
  split; [| split; [| apply tag_entity_type_get]].
  - destruct (resolved_key self l1) as [k|] eqn:Ek.
    + destruct (resolved_key_some _ _ _ Ek) as (d & Hd & Hne & Hg).
      rewrite Hg in Hr1, Hs1. simpl in Hr1, Hs1. injection Hr1 as <-.
      rewrite <- Hsame in S2.
      destruct (resolved_key_some _ _ _ S2) as (d' & Hd' & Hne' & Hg').
      rewrite Hg'. rewrite Hs1 in Hd'. simpl in Hd'.
      rewrite assoc_get_set_eq in Hd'. injection Hd' as <-. reflexivity.
    + rewrite <- Hsame in S2. rewrite (resolved_key_none _ _ S2).
      rewrite (resolved_key_none _ _ Ek) in Hr1, Hs1.
      destruct (default_anonymizer self) as [d|]; [| discriminate].
      simpl in Hr1, Hs1. injection Hr1 as <-. subst s1. reflexivity.
  - destruct (resolved_key self l1) as [k|] eqn:Ek.
    + destruct (resolved_key_some _ _ _ Ek) as (d & Hd & Hne & Hg).
      rewrite Hg in Hr1, Hs1. simpl in Hr1, Hs1. injection Hr1 as <-.
      rewrite <- Hsame in S2.
      destruct (resolved_key_some _ _ _ S2) as (d' & Hd' & Hne' & Hg').
      rewrite Hg'. rewrite Hs1 in Hd'. simpl in Hd'.
      rewrite assoc_get_set_eq in Hd'. injection Hd' as <-. simpl. apply assoc_get_set_eq.
    + rewrite <- Hsame in S2. rewrite (resolved_key_none _ _ S2).
      rewrite (resolved_key_none _ _ Ek) in Hr1, Hs1.
      destruct (default_anonymizer self) as [d|]; [| discriminate].
      simpl in Hr1, Hs1. injection Hr1 as <-. subst s1. reflexivity.
Qed.

(** * Witnesses of the further properties *)

Lemma constructed_text_witness :
  AnonymizerRequest example_data example_registry = inr example_self
  /\ get_text example_self = (inr (dict_get "text" example_data), example_self).
Proof.
  assert (H : AnonymizerRequest example_data example_registry = inr example_self)
    by (vm_compute; reflexivity).
  split; [exact H | exact (proj1 (constructed_text _ _ _ H))].
Defined.

Lemma constructed_results_witness :
  AnonymizerRequest example_data example_registry = inr example_self
  /\ [example_span 24 32 "NAME"; example_span 24 28 "FIRST_NAME";
      example_span 29 32 "LAST_NAME"; example_span 48 57 "PHONE_NUMBER"] <> [].
Proof.
  assert (H : AnonymizerRequest example_data example_registry = inr example_self)
    by (vm_compute; reflexivity).
  split; [exact H |].
  exact (proj1 (constructed_results _ _ _
                  [example_span 24 32 "NAME"; example_span 24 28 "FIRST_NAME";
                   example_span 29 32 "LAST_NAME"; example_span 48 57 "PHONE_NUMBER"]
                  H eq_refl)).
Defined.

Lemma constructed_policies_witness :
  AnonymizerRequest example_data example_registry = inr example_self
  /\ NoDup (map fst example_policies)
  /\ assoc_get "NAME" (_anonymizers example_self) = None.
Proof.
  assert (H : AnonymizerRequest example_data example_registry = inr example_self)
    by (vm_compute; reflexivity).
  assert (Hnd : NoDup (map fst example_policies)).
  { simpl. constructor; [simpl; intros [Hc | []]; discriminate |].
    constructor; [simpl; tauto | constructor]. }
  split; [exact H | split; [exact Hnd |]].
  exact (constructed_policies example_data example_registry example_self example_policies
           H eq_refl Hnd "NAME").
Defined.

Lemma get_anonymizer_lowercase_key_witness :
  fst (get_anonymizer [("type", VStr "MASK")] example_self) = inr (VClass "Mask")
  /\ exists k, lower k = k /\ dict_get k (anonymizers example_self) = VClass "Mask".
Proof.
  assert (H : fst (get_anonymizer [("type", VStr "MASK")] example_self) = inr (VClass "Mask"))
    by (vm_compute; reflexivity).
  split; [exact H |].
  destruct (get_anonymizer_lowercase_key _ _ _ H) as (k & Hk & Hg & _).
  exists k. split; assumption.
Defined.

Lemma anonymizers_without_items_witness :
  AnonymizerRequest list_policies_data example_registry =
    inl (AttributeError "'list' object has no attribute 'items'").
Proof.
  exact (anonymizers_without_items list_policies_data example_registry
           (snd ((handle_text list_policies_data ;;; handle_analyzer_results list_policies_data)
                   (new_request example_registry)))
           (VList []) ltac:(vm_compute; reflexivity) eq_refl ltac:(discriminate)
           ltac:(intros items; discriminate)).
Defined.

Lemma policy_without_get_witness :
  AnonymizerRequest string_policy_data example_registry =
    inl (AttributeError "'str' object has no attribute 'get'").
Proof.
  exact (policy_without_get string_policy_data example_registry
           (snd ((handle_text string_policy_data ;;; handle_analyzer_results string_policy_data)
                   (new_request example_registry)))
           [] [] "NAME" (VStr "replace") ltac:(vm_compute; reflexivity) eq_refl
           (Forall_nil _) ltac:(intros d; discriminate)).
Defined.

Lemma text_without_len_witness :
  AnonymizerRequest int_text_data example_registry =
    inl (TypeError "object of type 'int' has no len()").
Proof.
  exact (text_without_len int_text_data example_registry eq_refl eq_refl eq_refl).
Defined.

Lemma results_not_iterable_witness :
  AnonymizerRequest int_results_data example_registry =
    inl (TypeError "'int' object is not iterable").
Proof.
  exact (results_not_iterable int_results_data example_registry 11
           eq_refl eq_refl eq_refl eq_refl).
Defined.


Lemma get_anonymizer_dto_shared_slot_witness :
  resolved_key example_self "NAME" = resolved_key example_self "LOCATION"
  /\ fst (get_anonymizer_dto "LOCATION" (snd (get_anonymizer_dto "NAME" example_self)))
       = inr [("type", VStr "replace"); ("new_value", VStr "ANONYMIZED");
              ("anonymizer", VClass "Replace"); ("entity_type", VStr "LOCATION")].
Proof.
  assert (Hk : resolved_key example_self "NAME" = resolved_key example_self "LOCATION")
    by (vm_compute; reflexivity).
  split; [exact Hk |].
  exact (proj1 (get_anonymizer_dto_shared_slot example_self "NAME" "LOCATION"
                  [("type", VStr "replace"); ("new_value", VStr "ANONYMIZED");
                   ("anonymizer", VClass "Replace"); ("entity_type", VStr "NAME")]
                  Hk ltac:(vm_compute; reflexivity))).
Defined.
